(** * A shallow embedding of [bbot.py], the marketing research assistant

    The program is a Flask application around one global dictionary,
    [conversation_state], and one wrapper around the chat-completion
    API, [get_chatgpt_response].  The handlers and the background batch
    runner are embedded as computations of a state-and-exception monad
    over a [Store] that holds what the Python process holds: the global
    dictionary, the outside world behind [requests.post], the batch
    threads that were started and the files on disk.

    Conventions of the embedding.
    - A Python [str] is the [string] of its UTF-8 encoding; a value
      that is a [str] or [None] (a JSON text or [null]) is an
      [option string].
    - Python [int] values are in [Z]; list indices and [enumerate]
      counters are in [nat].
    - [print] and [time.sleep] leave the store as it is and are omitted.
    - A thread runs until it blocks, in a request or in [time.sleep]:
      the handlers and the parts of the batch runner between two such
      points are taken as wholes.
    - Every call of [requests.post] is recorded in the store together
      with a snapshot of [conversation_state] taken at the moment of the
      call: that snapshot is what a [/progress] poll arriving during the
      call reads.  The record is a ghost of the embedding, the program
      never reads it. *)

From Stdlib Require Import String Ascii List ZArith Bool Lia.
Import ListNotations.

Local Open Scope string_scope.
Local Open Scope Z_scope.

(** ** Text helpers *)

Definition dquote : string := String (ascii_of_nat 34) EmptyString.

(** *** [str.strip()]

    The characters on which [str.isspace] answers [True], by their
    UTF-8 encoding: U+0009 to U+000D, U+001C to U+0020 in one byte;
    U+0085 and U+00A0 in two; U+1680, U+2000 to U+200A, U+2028, U+2029,
    U+202F, U+205F and U+3000 in three. *)
Definition space1 (a : ascii) : bool :=
  let n := nat_of_ascii a in
  ((9 <=? n) && (n <=? 13) || (28 <=? n) && (n <=? 32))%nat.

Definition space2 (a b : ascii) : bool :=
  let m := nat_of_ascii a in
  let n := nat_of_ascii b in
  ((m =? 194) && ((n =? 133) || (n =? 160)))%nat.

Definition space3 (a b c : ascii) : bool :=
  let l := nat_of_ascii a in
  let m := nat_of_ascii b in
  let n := nat_of_ascii c in
  ((l =? 225) && (m =? 154) && (n =? 128)
   || (l =? 226) && (m =? 128)
        && ((128 <=? n) && (n <=? 138) || (n =? 168) || (n =? 169) || (n =? 175))
   || (l =? 226) && (m =? 129) && (n =? 159)
   || (l =? 227) && (m =? 128) && (n =? 128))%nat.

(** Whitespace taken from the front of a text. *)
Fixpoint lstrip_bytes (l : list ascii) : list ascii :=
  match l with
  | [] => []
  | a :: l1 =>
      if space1 a then lstrip_bytes l1
      else
        match l1 with
        | [] => l
        | b :: l2 =>
            if space2 a b then lstrip_bytes l2
            else
              match l2 with
              | [] => l
              | c :: l3 => if space3 a b c then lstrip_bytes l3 else l
              end
        end
  end.

(** The same from the back, on the reversed text: the bytes of a
    character come last byte first. *)
Fixpoint rstrip_reversed (l : list ascii) : list ascii :=
  match l with
  | [] => []
  | c :: l1 =>
      if space1 c then rstrip_reversed l1
      else
        match l1 with
        | [] => l
        | b :: l2 =>
            if space2 b c then rstrip_reversed l2
            else
              match l2 with
              | [] => l
              | a :: l3 => if space3 a b c then rstrip_reversed l3 else l
              end
        end
  end.

(** [str.strip()] without argument. *)
Definition strip (s : string) : string :=
  string_of_list_ascii
    (rev (rstrip_reversed (rev (lstrip_bytes (list_ascii_of_string s))))).

(** *** [str.format]

    [template.format(arg)] on the templates made of text, the escapes
    [{{] and [}}] and the positional field [{0}]; [None] on a template
    with any other brace, where [str.format] raises or formats by rules
    that are not modelled.  The argument is put in as it is. *)
Fixpoint format (template arg : string) : option string :=
  match template with
  | EmptyString => Some EmptyString
  | String c rest =>
      if Ascii.eqb c "{" then
        match rest with
        | EmptyString => None
        | String c1 rest1 =>
            if Ascii.eqb c1 "{" then option_map (String "{") (format rest1 arg)
            else if Ascii.eqb c1 "0" then
              match rest1 with
              | EmptyString => None
              | String c2 rest2 =>
                  if Ascii.eqb c2 "}"
                  then option_map (append arg) (format rest2 arg)
                  else None
              end
            else None
        end
      else if Ascii.eqb c "}" then
        match rest with
        | EmptyString => None
        | String c1 rest1 =>
            if Ascii.eqb c1 "}" then option_map (String "}") (format rest1 arg)
            else None
        end
      else option_map (String c) (format rest arg)
  end.

(** ** Configuration and prompt script *)

Definition AVAILABLE_MODELS : list string :=
  [
    "gpt-4o";
    "gpt-4-turbo";
    "gpt-4";
    "gpt-3.5-turbo"
  ].

Definition INITIAL_PROMPT : string :=
"You are an expert in writing, copywriting, marketing, market research, offer creation, and behavioral psychology. Your job is to write a compelling document for my desired target audience.

The ultimate goal is to profoundly understand my market and develop world-class messaging, which will give me the strategic positioning needed to dominate and scale this market.

To do this, I will give you the following:

1. My Target Niche
2. My previous thoughts and understanding of that niche
3. Context about my company and my offering to this niche
4. Market study questions
5. Competitive Analysis questions
6. Offer Value questions for my product

You write in a conversational, jargon-free tone that a 10-year-old would understand. Be conversational and plain.

Sounds good?".

Definition INTERACTIVE_PROMPT_TEMPLATES : list string :=
  [
"Great
1. My target niche: This time, I'm aiming to reach out to **{0}**
2. My previous thoughts and understanding of this niche: **{0}**
I can provide you with the context about my company if this is clear. 
Sounds good?";

    "Now, some context about my company and my offer to this niche, **{0}**"
  ].

Definition SCRIPTED_PROMPTS : list string :=
  [
"**Market Study: Demographics**
Please provide general demographics data about my target audience:
* Gender
* Age
* Income
* Geographic Location (Lifestyle)";

"**Market Study: Pain Points**
What are the demonetized pain points, desires, and objections?
- What Do They See? 
- What do they hear?
- What do they think & feel?
- What do they see & do?
- Pains, Frustrations, Fears, Problems
- Dreams, Desires, Hopes, Wants, Needs 
- Objections";

"**Market Study: Desires**
- List the mass desires of this target market.
- Select the broadest one with the most power.
- List the product performance that satisfies that desire.
- Pick the ONE product performance that is unique and powerfully fulfills the desire.";

"**Market Sophistication & Awareness**
Identify the level of market awareness for my offer:
1. Most aware (know product name and price)
2. Product Aware (know product but not price)
3. Solution aware (know possible solution exists)
4. Problem aware (may or may not know they have problem)
5. Unaware (completely new market)";

"**Competitor Analysis**
Search for my top 3 competitors that have a similar offer to this niche:
1. 
2.
3,";

"**Competitor Positioning**
For each competitor:
1. What is their product/service positioning?
2. What are the deliverables? 
3. Price point? 
4. Payment terms? 
5. Bonuses? 
6. Guarantees/Risk Reversals?";

"**Competitor Messaging**
Common headlines competitors are using:
1.
2.
3,
How do competitors position themselves?
1,
2,
3,
What is their unique selling proposition?
1,
2,
3,
What promises and claims are they making?
1,
2,
3,";

"**Competitor Mechanisms**
What unique mechanisms are competitors using?
1,
2,
3,
What are people saying in testimonials?
1,
2,
3,
Top sites competitors are advertising on:
1,
2,
3,";

"**Offer Appeal**
Categorize my company's appeal:
1. Sex appeal (relationships, social acceptance)
2. Greed (things money can buy)
3. Fear (of losing or not gaining)
4. Duty/honor (what's best for people served)";

"**Unique Selling Proposition**
Establish my USP aligned with current offering:
- Most powerful benefit with emotional pulling power
- Current biggest growing trends in market
- How to position as unique characteristic
- How to communicate clearly and concisely
- Can I create a " ++ dquote ++ "new category" ++ dquote ++ " or niche down?";

"**Compiling Final Document**
Compile all responses into a comprehensive marketing strategy document with:
1. Target Niche Analysis
2. Competitive Landscape
3. Offer Positioning & Strategic Advantage
Write in clear, plain, powerful language with bullet points where needed."
  ].

Definition PROMPT_NAMES : list string :=
  [
    "Collecting Demographic Data";
    "Analyzing Pain Points";
    "Identifying Market Desires";
    "Assessing Market Awareness";
    "Finding Competitors";
    "Analyzing Competitor Positioning";
    "Studying Competitor Messaging";
    "Examining Competitor Mechanisms";
    "Defining Our Appeal";
    "Crafting Unique Selling Proposition";
    "Compiling Final Strategy Document"
  ].

(** ** Data model *)

(** One message of a conversation: [{"role": ..., "content": ...}]; the
    content of an assistant message is what the wrapper returned, a
    text or [None]. *)
Record Turn : Type := mkTurn { role : string; content : option string }.

Definition user_turn (text : string) : Turn := mkTurn "user" (Some text).
Definition assistant_turn (reply : option string) : Turn :=
  mkTurn "assistant" reply.

(** The global dictionary [conversation_state], one field per key. *)
Record Session : Type := mkSession {
  history : list Turn;
  step : Z;                       (* 0=start, 1=niche, 2=offer, 3=processing, 4=complete *)
  model : string;
  final_response : option string; (* [None] or what the last call returned *)
  current_prompt : nat;
  progress : Z;
  status : string;
  is_processing : bool
}.

Definition conversation_state0 : Session :=
  {| history := [];
     step := 0;
     model := nth 0 AVAILABLE_MODELS "";
     final_response := None;
     current_prompt := 0;
     progress := 0;
     status := "Ready to start";
     is_processing := false |}.

(** What [requests.post] followed by [raise_for_status] and the JSON
    projection evaluates to inside the [try] block: the value under
    ["content"], which the API gives as a text or as [null], or an
    exception [e] with [str(e)] as its message. *)
Inductive http_outcome : Type :=
| Replied (content : option string)
| Failed (message : string).

(** The JSON values the handlers build. *)
Inductive json : Type :=
| JNull
| JBool (b : bool)
| JInt (z : Z)
| JStr (s : string).

Definition json_of_text (o : option string) : json :=
  match o with
  | Some s => JStr s
  | None => JNull
  end.

(** What a route returns: [jsonify(body)] with its status code, or the
    file served by [send_from_directory(..., as_attachment=True)]. *)
Inductive response : Type :=
| Jsonify (code : Z) (body : list (string * json))
| Attachment (filename : string) (data : string).

(** [request.form]: the posted fields in order; [get] takes the first
    value of a key and the default when the key is absent. *)
Definition form : Type := list (string * string).

Fixpoint form_lookup (f : form) (key : string) : option string :=
  match f with
  | (k, v) :: rest => if String.eqb k key then Some v else form_lookup rest key
  | [] => None
  end.

Definition form_get (f : form) (key default : string) : string :=
  match form_lookup f key with
  | Some v => v
  | None => default
  end.

(** [FormatError] stands for what [str.format] raises on a template
    outside the ones [format] covers. *)
Inductive exn : Type :=
| IndexError
| FormatError
| NotFound.

(** The files the program touches.  [open(name, 'w')] resolves a
    relative name against the working directory of the process;
    [send_from_directory('.', name)] resolves its directory against the
    root path of the application, the directory of [bbot.py]. *)
Record Disk : Type := mkDisk {
  working_directory : string;
  root_path : string;
  contents : list ((string * string) * string)   (* (directory, name), data *)
}.

Definition path_eqb (p q : string * string) : bool :=
  String.eqb (fst p) (fst q) && String.eqb (snd p) (snd q).

Fixpoint file_lookup (fs : list ((string * string) * string))
         (p : string * string) : option string :=
  match fs with
  | (q, d) :: rest => if path_eqb q p then Some d else file_lookup rest p
  | [] => None
  end.

Fixpoint remove_file (p : string * string)
         (fs : list ((string * string) * string)) :=
  match fs with
  | (q, d) :: rest =>
      if path_eqb q p then remove_file p rest else (q, d) :: remove_file p rest
  | [] => []
  end.

Section Program.

(** The service behind [API_URL]: from its current state, the model
    identifier and the messages of a request, the outcome of the request
    and its next state. *)
Variable World : Type.
Variable post : World -> string -> list Turn -> http_outcome * World.

(** One recorded call of [requests.post]. *)
Record Call : Type := mkCall {
  call_model : string;
  call_messages : list Turn;
  call_outcome : http_outcome;
  call_session : Session   (* [conversation_state] during the call *)
}.

Record Store : Type := mkStore {
  world : World;
  conversation_state : Session;
  calls : list Call;               (* ghost: the calls made so far, oldest first *)
  threads : nat;                   (* batch threads started so far *)
  files : Disk
}.

Inductive result (A : Type) : Type :=
| Ok (a : A) (st : Store)
| Raise (e : exn) (st : Store).
Arguments Ok {A} a st.
Arguments Raise {A} e st.

Definition M (A : Type) : Type := Store -> result A.

Definition ret {A} (a : A) : M A := fun st => Ok a st.

Definition bind {A B} (m : M A) (k : A -> M B) : M B :=
  fun st =>
    match m st with
    | Ok a st' => k a st'
    | Raise e st' => Raise e st'
    end.

Definition raise {A} (e : exn) : M A := fun st => Raise e st.

Notation "x <- m ;; k" := (bind m (fun x => k))
  (at level 61, m at next level, right associativity).
Notation "m ;; k" := (bind m (fun _ => k))
  (at level 61, right associativity).

(** *** Access to the global dictionary *)

Definition get_state : M Session :=
  fun st => Ok (conversation_state st) st.

Definition put_state (s : Session) : M unit :=
  fun st => Ok tt (mkStore (world st) s (calls st) (threads st) (files st)).

Definition modify (f : Session -> Session) : M unit :=
  s <- get_state ;; put_state (f s).

Definition with_history (v : list Turn) (s : Session) : Session :=
  mkSession v (step s) (model s) (final_response s) (current_prompt s)
            (progress s) (status s) (is_processing s).
Definition with_step (v : Z) (s : Session) : Session :=
  mkSession (history s) v (model s) (final_response s) (current_prompt s)
            (progress s) (status s) (is_processing s).
Definition with_final_response (v : option string) (s : Session) : Session :=
  mkSession (history s) (step s) (model s) v (current_prompt s)
            (progress s) (status s) (is_processing s).
Definition with_current_prompt (v : nat) (s : Session) : Session :=
  mkSession (history s) (step s) (model s) (final_response s) v
            (progress s) (status s) (is_processing s).
Definition with_progress (v : Z) (s : Session) : Session :=
  mkSession (history s) (step s) (model s) (final_response s) (current_prompt s)
            v (status s) (is_processing s).
Definition with_status (v : string) (s : Session) : Session :=
  mkSession (history s) (step s) (model s) (final_response s) (current_prompt s)
            (progress s) v (is_processing s).
Definition with_is_processing (v : bool) (s : Session) : Session :=
  mkSession (history s) (step s) (model s) (final_response s) (current_prompt s)
            (progress s) (status s) v.

(** [conversation_state['history'].extend(turns)] *)
Definition extend_history (turns : list Turn) : M unit :=
  modify (fun s => with_history (history s ++ turns) s).

(** [l[i]], raising [IndexError] out of range. *)
Definition index {A} (l : list A) (i : nat) : M A :=
  match nth_error l i with
  | Some x => ret x
  | None => raise IndexError
  end.

(** *** The outside of the process *)

Definition requests_post (mdl : string) (messages : list Turn) : M http_outcome :=
  fun st =>
    let (o, w) := post (world st) mdl messages in
    Ok o (mkStore w (conversation_state st)
                  (calls st ++ [mkCall mdl messages o (conversation_state st)])
                  (threads st) (files st)).

(** [with open(name, 'w') as f: f.write(data)] *)
Definition write_file (name data : string) : M unit :=
  fun st =>
    let d := files st in
    let p := (working_directory d, name) in
    Ok tt (mkStore (world st) (conversation_state st) (calls st) (threads st)
                   (mkDisk (working_directory d) (root_path d)
                           ((p, data) :: remove_file p (contents d)))).

(** [send_from_directory('.', name, as_attachment=True)]; a file that
    is not there makes it raise [NotFound]. *)
Definition send_from_directory (name : string) : M response :=
  fun st =>
    match file_lookup (contents (files st)) (root_path (files st), name) with
    | Some data => Ok (Attachment name data) st
    | None => Raise NotFound st
    end.

(** ** The Chat Client wrapper *)

(** What the wrapper hands back for an outcome of the request: the
    content as it came, or, from the [except Exception] branch, the
    error description. *)
Definition reply_text (o : http_outcome) : option string :=
  match o with
  | Replied content => content
  | Failed message => Some ("Error: " ++ message)
  end.

Definition get_chatgpt_response (prompt mdl : string) (hist : option (list Turn))
  : M (option string) :=
  let messages :=
    match hist with
    | Some ((_ :: _) as h) => (h ++ [user_turn prompt])%list
    | _ => [user_turn prompt]
    end in
  o <- requests_post mdl messages ;;
  ret (reply_text o).

(** ** The scripted batch runner *)

(** [int((i / len(SCRIPTED_PROMPTS))) * 100]: the quotient is taken
    before the multiplication.  For the non-negative [i] of the loop,
    truncating the true quotient is the integer quotient. *)
Definition progress_at (i : nat) : Z :=
  Z.of_nat i / Z.of_nat (length SCRIPTED_PROMPTS) * 100.

(** The body of [for i, prompt in enumerate(SCRIPTED_PROMPTS)], from
    counter [i] on, over the entries still to come. *)
Fixpoint scripted_loop (i : nat) (prompts : list string) : M unit :=
  match prompts with
  | [] => ret tt
  | prompt :: rest =>
      modify (with_current_prompt i) ;;
      name <- index PROMPT_NAMES i ;;
      modify (with_status name) ;;
      modify (with_progress (progress_at i)) ;;
      s <- get_state ;;
      response <- get_chatgpt_response prompt (model s) (Some (history s)) ;;
      extend_history [user_turn prompt; assistant_turn response] ;;
      scripted_loop (S i) rest
  end.

Definition COMPILE_PROMPT : string :=
  "Compile all previous responses into a comprehensive marketing strategy document with clear sections.".

Definition process_all_scripted_prompts : M unit :=
  modify (with_is_processing true) ;;
  modify (with_step 3) ;;
  modify (with_progress 0) ;;
  scripted_loop 0 SCRIPTED_PROMPTS ;;
  modify (with_status "Finalizing document") ;;
  s <- get_state ;;
  final <- get_chatgpt_response COMPILE_PROMPT (model s) (Some (history s)) ;;
  modify (with_final_response final) ;;
  modify (with_step 4) ;;
  modify (with_progress 100) ;;
  modify (with_status "Complete") ;;
  modify (with_is_processing false).

(** ** Starting the batch thread *)

(** The statements of [process_all_scripted_prompts] before its loop. *)
Definition batch_prologue : M unit :=
  modify (with_is_processing true) ;;
  modify (with_step 3) ;;
  modify (with_progress 0).

(** The statements of the loop's turn for entry 0 that come before its
    request. *)
Definition first_entry_labels : M unit :=
  match SCRIPTED_PROMPTS with
  | [] => ret tt
  | _ :: _ =>
      modify (with_current_prompt 0) ;;
      name <- index PROMPT_NAMES 0 ;;
      modify (with_status name) ;;
      modify (with_progress (progress_at 0))
  end.

(** [threading.Thread(target=process_all_scripted_prompts).start()]:
    [start] returns when the new thread runs, and the new thread runs
    until it blocks, which it first does in the request for entry 0.
    So when [start] returns the thread has made the assignments before
    its loop and those for entry 0; the rest of its body comes later. *)
Definition start_batch_thread : M unit :=
  (fun st => Ok tt (mkStore (world st) (conversation_state st) (calls st)
                            (S (threads st)) (files st))) ;;
  batch_prologue ;;
  first_entry_labels.

(** ** The routes *)

(** [POST /start] *)
Definition start_conversation (f : form) : M response :=
  default <- index AVAILABLE_MODELS 0 ;;
  put_state {| history := [];
               step := 0;
               model := form_get f "model" default;
               final_response := None;
               current_prompt := 0;
               progress := 0;
               status := "Starting...";
               is_processing := false |} ;;
  s <- get_state ;;
  response <- get_chatgpt_response INITIAL_PROMPT (model s) None ;;
  extend_history [user_turn INITIAL_PROMPT; assistant_turn response] ;;
  modify (with_step 1) ;;
  s <- get_state ;;
  ret (Jsonify 200
         [("response", json_of_text response);
          ("step", JInt 1);
          ("user_prompt", JStr "Please enter your target niche information:");
          ("status", JStr (status s))]).

Definition ACK_MESSAGE : string :=
  "Great! I'm now processing all the marketing research questions. This may take a few minutes...".

(** [template.format(user_input)] *)
Definition str_format (template arg : string) : M string :=
  match format template arg with
  | Some text => ret text
  | None => raise FormatError
  end.

(** [POST /next] *)
Definition next_step (f : form) : M response :=
  let user_input := strip (form_get f "input" "") in
  s <- get_state ;;
  if step s =? 1 then
    template <- index INTERACTIVE_PROMPT_TEMPLATES 0 ;;
    prompt <- str_format template user_input ;;
    response <- get_chatgpt_response prompt (model s) (Some (history s)) ;;
    extend_history [user_turn prompt; assistant_turn response] ;;
    modify (with_step 2) ;;
    s <- get_state ;;
    ret (Jsonify 200
           [("response", json_of_text response);
            ("step", JInt 2);
            ("user_prompt", JStr "Now please provide context about your company and offer:");
            ("status", JStr (status s))])
  else if step s =? 2 then
    template <- index INTERACTIVE_PROMPT_TEMPLATES 1 ;;
    prompt <- str_format template user_input ;;
    response <- get_chatgpt_response prompt (model s) (Some (history s)) ;;
    extend_history [user_turn prompt; assistant_turn response] ;;
    s <- get_state ;;
    (if negb (is_processing s) then start_batch_thread else ret tt) ;;
    ret (Jsonify 200
           [("response", JStr ACK_MESSAGE);
            ("step", JInt 3);
            ("status", JStr "Starting analysis...");
            ("progress", JInt 0);
            ("auto_proceed", JBool false)])
  else
    ret (Jsonify 200 [("error", JStr "Invalid step")]).

(** [GET /progress] *)
Definition get_progress : M response :=
  s <- get_state ;;
  ret (Jsonify 200
         [("step", JInt (step s));
          ("progress", JInt (progress s));
          ("status", JStr (status s));
          ("current_prompt", JInt (Z.of_nat (current_prompt s)));
          ("total_prompts", JInt (Z.of_nat (length SCRIPTED_PROMPTS)));
          ("complete", JBool (step s =? 4));
          ("is_processing", JBool (is_processing s))]).

Definition NOT_READY : response :=
  Jsonify 404 [("error", JStr "Document not ready yet")].

(** [GET /download]; [None] and the empty text are the values of
    [final_response] that [not] takes for false. *)
Definition download : M response :=
  s <- get_state ;;
  match final_response s with
  | Some ((String _ _) as text) =>
      let filename := "marketing_strategy.txt" in
      write_file filename text ;;
      send_from_directory filename
  | _ => ret NOT_READY
  end.

(** [GET /get_final_response] *)
Definition get_final_response : M response :=
  s <- get_state ;;
  if negb (step s =? 4) then ret NOT_READY
  else ret (Jsonify 200 [("response", json_of_text (final_response s))]).

(** ** Reading the record of calls *)

(** The prompt of a recorded call: the content of its last message. *)
Definition call_prompt (c : Call) : string :=
  match content (last (call_messages c) (user_turn "")) with
  | Some text => text
  | None => ""
  end.

(** What the wrapper returned for a recorded call. *)
Definition call_reply (c : Call) : option string := reply_text (call_outcome c).

(** The turn pair the callers of the wrapper append for a call. *)
Definition call_turns (c : Call) : list Turn :=
  [user_turn (call_prompt c); assistant_turn (call_reply c)].

(** Every call carried the history accumulated so far, starting from
    [h], and the pair of each call was appended before the next. *)
Fixpoint chained (h : list Turn) (cs : list Call) : Prop :=
  match cs with
  | [] => True
  | c :: rest =>
      history (call_session c) = h /\
      call_messages c = (h ++ [user_turn (call_prompt c)])%list /\
      chained (h ++ call_turns c) rest
  end.

(** What stays as it is in [conversation_state] while the loop runs. *)
Definition same_run (s0 s : Session) : Prop :=
  step s = step s0 /\ model s = model s0 /\
  final_response s = final_response s0 /\ is_processing s = is_processing s0.

(** The prompts [next_step] builds from the posted input. *)
Definition formatted (template arg : string) : string :=
  match format template arg with
  | Some text => text
  | None => ""
  end.

Definition niche_prompt (f : form) : string :=
  formatted (nth 0 INTERACTIVE_PROMPT_TEMPLATES "") (strip (form_get f "input" "")).

Definition offer_prompt (f : form) : string :=
  formatted (nth 1 INTERACTIVE_PROMPT_TEMPLATES "") (strip (form_get f "input" "")).

(** [final_response] is set exactly in step 4. *)
Definition document_invariant (s : Session) : Prop :=
  final_response s <> None <-> step s = 4.

(** The reading of [/start] under which an identifier outside
    [AVAILABLE_MODELS] is replaced by the default one. *)
Definition start_falls_back_to_default : Prop :=
  forall (m : string) (st : Store),
    exists (r : response) (st' : Store),
      start_conversation [("model", m)] st = Ok r st' /\
      (~ In m AVAILABLE_MODELS ->
       model (conversation_state st') = nth 0 AVAILABLE_MODELS "") /\
      In (model (conversation_state st')) AVAILABLE_MODELS.

(** [is_processing] is set only while the runner runs, in step 3. *)
Definition idle_unless_running (s : Session) : Prop :=
  is_processing s = true -> step s = 3.

(** The session when [Thread.start] has returned: the new thread has
    made its assignments up to the request for entry 0. *)
Definition thread_started (s : Session) : Session :=
  with_progress (progress_at 0)
    (with_status (nth 0 PROMPT_NAMES "")
       (with_current_prompt 0
          (with_progress 0 (with_step 3 (with_is_processing true s))))).

Definition DOCUMENT_NAME : string := "marketing_strategy.txt".

(** The disk after the document was written by [/download]. *)
Definition written (text : string) (d : Disk) : Disk :=
  mkDisk (working_directory d) (root_path d)
         (((working_directory d, DOCUMENT_NAME), text)
            :: remove_file (working_directory d, DOCUMENT_NAME) (contents d)).

(** The store a computation ends in, returned or raised. *)
Definition final_store {A} (r : result A) : Store :=
  match r with
  | Ok _ st => st
  | Raise _ st => st
  end.


(** The reading of the document invariant under which the batch runner
    keeps it whatever the service answers. *)
Definition runner_keeps_document_invariant : Prop :=
  forall st : Store,
    document_invariant (conversation_state st) ->
    exists st' : Store,
      process_all_scripted_prompts st = Ok tt st' /\
      document_invariant (conversation_state st').

(** The calls [cs] are what the service answered, one after the other,
    from its state [w] to its state [w']. *)
Fixpoint served (w : World) (cs : list Call) (w' : World) : Prop :=
  match cs with
  | [] => w' = w
  | c :: rest =>
      call_outcome c = fst (post w (call_model c) (call_messages c)) /\
      served (snd (post w (call_model c) (call_messages c))) rest w'
  end.

(** ** The batch runner in parts *)

(** The statements of [process_all_scripted_prompts] after its loop. *)
Definition batch_epilogue : M unit :=
  modify (with_status "Finalizing document") ;;
  s <- get_state ;;
  final <- get_chatgpt_response COMPILE_PROMPT (model s) (Some (history s)) ;;
  modify (with_final_response final) ;;
  modify (with_step 4) ;;
  modify (with_progress 100) ;;
  modify (with_status "Complete") ;;
  modify (with_is_processing false).

(** The thread of the batch runner up to the end of entry [k - 1], where
    it sleeps, and from entry [k] on. *)
Definition batch_until (k : nat) : M unit :=
  batch_prologue ;; scripted_loop 0 (firstn k SCRIPTED_PROMPTS).

Definition batch_from (k : nat) : M unit :=
  scripted_loop k (skipn k SCRIPTED_PROMPTS) ;; batch_epilogue.

(** A history of user/assistant pairs. *)
Fixpoint alternating (h : list Turn) : Prop :=
  match h with
  | [] => True
  | u :: a :: rest =>
      role u = "user" /\ role a = "assistant" /\ alternating rest
  | _ :: [] => False
  end.

(** A request the chat API is given by this program: an alternating
    history followed by one user turn. *)
Definition well_formed_request (messages : list Turn) : Prop :=
  exists (h : list Turn) (prompt : string),
    messages = (h ++ [user_turn prompt])%list /\ alternating h.

End Program.

Arguments mkStore {World} world conversation_state calls threads files.
Arguments world {World} s.
Arguments conversation_state {World} s.
Arguments calls {World} s.
Arguments threads {World} s.
Arguments files {World} s.
Arguments Ok {World A} a st.
Arguments Raise {World A} e st.
Arguments ret {World A} a st.
Arguments bind {World A B} m k st.
Arguments raise {World A} e st.
Arguments get_state {World} st.
Arguments put_state {World} s st.
Arguments modify {World} f st.
Arguments extend_history {World} turns st.
Arguments index {World A} l i st.
Arguments start_batch_thread {World} st.
Arguments write_file {World} name data st.
Arguments send_from_directory {World} name st.
Arguments requests_post {World} post mdl messages st.
Arguments get_chatgpt_response {World} post prompt mdl hist st.
Arguments scripted_loop {World} post i prompts st.
Arguments process_all_scripted_prompts {World} post st.
Arguments start_conversation {World} post f st.
Arguments next_step {World} post f st.
Arguments get_progress {World} st.
Arguments download {World} st.
Arguments get_final_response {World} st.
Arguments start_falls_back_to_default {World} post.
Arguments runner_keeps_document_invariant {World} post.
Arguments served {World} post w cs w'.
Arguments final_store {World A} r.
Arguments first_entry_labels {World} st.
Arguments str_format {World} template arg st.
Arguments batch_prologue {World} st.
Arguments batch_epilogue {World} post st.
Arguments batch_until {World} post k st.
Arguments batch_from {World} post k st.

(** ** Concrete services and stores *)

(** A service that counts the requests it has answered and answers the
    [n]-th with [answer n]. *)
Definition counting_service (answer : nat -> http_outcome)
  : nat -> string -> list Turn -> http_outcome * nat :=
  fun n _ _ => (answer n, S n).

(** Answers with the letters A, B, C, ... in turn. *)
Definition numbered_service :=
  counting_service
    (fun n => Replied (Some (String (ascii_of_nat (65 + n)) EmptyString))).
Definition failing_service := counting_service (fun _ => Failed "503 Server Error").
(** Answers every request with a [null] content. *)
Definition null_service := counting_service (fun _ => Replied None).

(** The process right after its start, run from the directory of
    [bbot.py]. *)
Definition start_store : Store nat :=
  mkStore 0%nat conversation_state0 [] 0 (mkDisk "/srv/app" "/srv/app" []).

Definition store_after {A} (r : result nat A) : Store nat :=
  match r with
  | Ok _ st => st
  | Raise _ st => st
  end.

(** The stores of the scenario: [/start], then the niche, then the
    offer, then the batch run. *)
Definition niche_store : Store nat :=
  store_after (start_conversation numbered_service [("model", "gpt-4")] start_store).

Definition offer_store : Store nat :=
  store_after (next_step numbered_service
                         [("input", "dog walkers"); ("step", "1")] niche_store).

Definition launched_store : Store nat :=
  store_after (next_step numbered_service
                         [("input", "a booking app"); ("step", "2")] offer_store).

Definition complete_store : Store nat :=
  store_after (process_all_scripted_prompts numbered_service launched_store).


(** The same run against a service that answers with [null]. *)
Definition null_complete_store : Store nat :=
  store_after (process_all_scripted_prompts null_service launched_store).

(** The completed session in a process that was started from another
    directory than that of [bbot.py]. *)
Definition elsewhere_store : Store nat :=
  mkStore (world complete_store) (conversation_state complete_store)
          (calls complete_store) (threads complete_store)
          (mkDisk "/home/user" "/srv/app" []).

(** * Properties of the program *)

(** ** Histories of pairs *)

Lemma alternating_app (a : list Turn) :
  forall b : list Turn,
    alternating b ->
    (alternating a -> alternating (a ++ b)) /\
    (forall x, alternating (x :: a) -> alternating (x :: a ++ b)).
Proof.
  induction a as [|y a IH]; intros b Hb.
  - split; [intros _; exact Hb|intros x []].
  - destruct (IH b Hb) as (IH1 & IH2). split.
    + intros H. exact (IH2 y H).
    + intros x (Hx & Hy & Ha). cbn [app alternating].
      repeat split; [exact Hx|exact Hy|exact (IH1 Ha)].
Qed.

(** Calls that carry an alternating history, pair by pair, are
    well-formed requests and leave an alternating history. *)
Lemma chained_well_formed (cs : list Call) :
  forall h : list Turn,
    alternating h ->
    chained h cs ->
    Forall (fun c => well_formed_request (call_messages c)) cs /\
    alternating (h ++ flat_map call_turns cs).
Proof.
  induction cs as [|c cs IH]; intros h Hh Hchain.
  - split; [constructor|]. cbn [flat_map]. rewrite app_nil_r. exact Hh.
  - destruct Hchain as (_ & Hmsg & Hrest).
    assert (Hnext : alternating (h ++ call_turns c)).
    { apply alternating_app; [|exact Hh]. cbn. repeat split. }
    destruct (IH _ Hnext Hrest) as (Hall & Halt).
    split.
    + constructor; [|exact Hall].
      exists h, (call_prompt c). split; assumption.
    + cbn [flat_map]. rewrite app_assoc. exact Halt.
Qed.

(** ** The two templates *)

Lemma format_niche_template (text : string) :
  format (nth 0 INTERACTIVE_PROMPT_TEMPLATES "") text =
  Some (formatted (nth 0 INTERACTIVE_PROMPT_TEMPLATES "") text).
Proof. vm_compute. reflexivity. Qed.

Lemma format_offer_template (text : string) :
  format (nth 1 INTERACTIVE_PROMPT_TEMPLATES "") text =
  Some (formatted (nth 1 INTERACTIVE_PROMPT_TEMPLATES "") text).
Proof. vm_compute. reflexivity. Qed.

Section Properties.

Variable World : Type.
Variable post : World -> string -> list Turn -> http_outcome * World.

Ltac run_modify :=
  unfold bind at 1; unfold modify at 1;
  unfold bind at 1, get_state at 1, put_state at 1.

(** ** The wrapper, one call at a time *)

Lemma get_chatgpt_response_history (prompt mdl : string) (h : list Turn) (st : Store World) :
  get_chatgpt_response post prompt mdl (Some h) st =
  Ok (reply_text (fst (post (world st) mdl (h ++ [user_turn prompt]))))
     (mkStore (snd (post (world st) mdl (h ++ [user_turn prompt])))
              (conversation_state st)
              (calls st ++ [mkCall mdl (h ++ [user_turn prompt])
                                   (fst (post (world st) mdl (h ++ [user_turn prompt])))
                                   (conversation_state st)])
              (threads st) (files st)).
Proof.
  unfold get_chatgpt_response, bind, requests_post, ret.
  destruct h as [|t h']; cbn [app];
    match goal with
    | |- context [post ?w ?m ?msgs] => destruct (post w m msgs) as [o w']
    end; reflexivity.
Qed.

Lemma get_chatgpt_response_fresh (prompt mdl : string) (st : Store World) :
  get_chatgpt_response post prompt mdl None st =
  Ok (reply_text (fst (post (world st) mdl [user_turn prompt])))
     (mkStore (snd (post (world st) mdl [user_turn prompt]))
              (conversation_state st)
              (calls st ++ [mkCall mdl [user_turn prompt]
                                   (fst (post (world st) mdl [user_turn prompt]))
                                   (conversation_state st)])
              (threads st) (files st)).
Proof.
  unfold get_chatgpt_response, bind, requests_post, ret.
  destruct (post (world st) mdl [user_turn prompt]) as [o w].
  reflexivity.
Qed.

Lemma call_prompt_appended (mdl prompt : string) (h : list Turn)
      (o : http_outcome) (s : Session) :
  call_prompt (mkCall mdl (h ++ [user_turn prompt]) o s) = prompt.
Proof. unfold call_prompt. simpl. rewrite last_last. reflexivity. Qed.

Lemma last_cons_default {A} (l : list A) :
  forall x d : A, last (x :: l) d = last l x.
Proof.
  induction l as [|y l IH]; intros x d.
  - reflexivity.
  - change (last (x :: y :: l) d) with (last (y :: l) d).
    rewrite (IH y d), (IH y x). reflexivity.
Qed.

(** ** The loop of the batch runner *)

Lemma scripted_loop_spec (prompts : list string) :
  forall (i : nat) (st : Store World),
    (i + length prompts <= length PROMPT_NAMES)%nat ->
    exists (new : list Call) (st' : Store World),
      scripted_loop post i prompts st = Ok tt st' /\
      calls st' = (calls st ++ new)%list /\
      map call_prompt new = prompts /\
      map (fun c => current_prompt (call_session c)) new = seq i (length prompts) /\
      Forall (fun c =>
                progress (call_session c) = progress_at (current_prompt (call_session c)) /\
                call_model c = model (conversation_state st) /\
                same_run (conversation_state st) (call_session c)) new /\
      chained (history (conversation_state st)) new /\
      history (conversation_state st') =
        (history (conversation_state st) ++ flat_map call_turns new)%list /\
      same_run (conversation_state st) (conversation_state st') /\
      progress (conversation_state st') =
        last (map (fun c => progress (call_session c)) new)
             (progress (conversation_state st)) /\
      threads st' = threads st /\ files st' = files st.
Proof.
  induction prompts as [|prompt rest IH]; intros i st Hlen.
  - exists [], st. simpl. unfold ret, same_run.
    rewrite !app_nil_r. repeat split; auto.
  - change (length (prompt :: rest)) with (S (length rest)) in Hlen.
    destruct (nth_error PROMPT_NAMES i) as [name|] eqn:Hname.
    2:{ apply nth_error_None in Hname. lia. }
    cbn [scripted_loop].
    unfold bind at 1. unfold modify at 1. unfold bind at 1, get_state at 1, put_state at 1.
    unfold bind at 1. unfold index at 1. rewrite Hname. unfold ret at 1.
    unfold bind at 1. unfold modify at 1. unfold bind at 1, get_state at 1, put_state at 1.
    unfold bind at 1. unfold modify at 1. unfold bind at 1, get_state at 1, put_state at 1.
    unfold bind at 1. unfold get_state at 1.
    unfold bind at 1. rewrite get_chatgpt_response_history.
    unfold bind at 1. unfold extend_history at 1, modify at 1.
    unfold bind at 1, get_state at 1, put_state at 1.
    cbn [conversation_state world calls threads files
         history step model final_response current_prompt progress status is_processing
         with_current_prompt with_status with_progress with_history].
    set (h := history (conversation_state st)).
    set (mdl := model (conversation_state st)).
    set (o := fst (post (world st) mdl (h ++ [user_turn prompt]))).
    set (w := snd (post (world st) mdl (h ++ [user_turn prompt]))).
    match goal with
    | |- context [mkCall mdl _ o ?snap] => set (s1 := snap)
    end.
    set (c := mkCall mdl (h ++ [user_turn prompt]) o s1).
    match goal with
    | |- context [scripted_loop post (S i) rest ?x] => set (st1 := x)
    end.
    destruct (IH (S i) st1) as (new & st' & Hrun & Hcalls & Hprompts & Hcur & Hall
                                & Hchain & Hhist & Hsame & Hprog & Hthr & Hfiles).
    { lia. }
    assert (Hc : call_prompt c = prompt) by apply call_prompt_appended.
    exists (c :: new), st'.
    split; [exact Hrun|].
    split; [rewrite Hcalls; subst st1; simpl; rewrite <- app_assoc; reflexivity|].
    split; [simpl; rewrite Hc, Hprompts; reflexivity|].
    split; [simpl; rewrite Hcur; reflexivity|].
    split.
    { constructor.
      - subst c s1. simpl. unfold same_run. simpl. repeat split; reflexivity.
      - eapply Forall_impl; [|exact Hall]. intros c' (H1 & H2 & H3).
        subst st1. simpl in H2, H3. unfold same_run in *. simpl in H3.
        repeat split; tauto. }
    split.
    { simpl. split; [reflexivity|]. split; [rewrite Hc; reflexivity|].
      subst st1. simpl in Hchain. unfold call_turns, call_reply. rewrite Hc. exact Hchain. }
    split.
    { rewrite Hhist. subst st1. simpl. unfold call_turns at 2, call_reply. rewrite Hc.
      rewrite <- app_assoc. reflexivity. }
    split.
    { subst st1. unfold same_run in *. simpl in Hsame. exact Hsame. }
    split.
    { rewrite Hprog. cbn [map]. rewrite last_cons_default. reflexivity. }
    subst st1. simpl in Hthr, Hfiles. auto.
Qed.

Lemma chained_app (a b : list Call) :
  forall h : list Turn,
    chained h a ->
    chained (h ++ flat_map call_turns a) b ->
    chained h (a ++ b).
Proof.
  induction a as [|c a IH]; intros h Ha Hb.
  - simpl in Hb. rewrite app_nil_r in Hb. exact Hb.
  - destruct Ha as (H1 & H2 & H3).
    change ((c :: a) ++ b)%list with (c :: (a ++ b))%list.
    cbn [chained]. repeat split; [exact H1|exact H2|].
    apply IH; [exact H3|].
    cbn [flat_map] in Hb. rewrite app_assoc in Hb. exact Hb.
Qed.

Lemma progress_at_small (i : nat) :
  (i < length SCRIPTED_PROMPTS)%nat -> progress_at i = 0.
Proof.
  intros Hi. unfold progress_at.
  rewrite Z.div_small; [reflexivity|lia].
Qed.

Lemma names_cover_script : (0 + length SCRIPTED_PROMPTS <= length PROMPT_NAMES)%nat.
Proof. apply Nat.leb_le. reflexivity. Qed.

(** ** The batch runner as a whole *)

(** From any store the runner returns; it makes one call per scripted
    entry, [new], and one more, [fin]. *)
Lemma process_all_scripted_prompts_spec (st : Store World) :
  exists (new : list Call) (fin : Call) (st' : Store World),
    process_all_scripted_prompts post st = Ok tt st' /\
    calls st' = (calls st ++ new ++ [fin])%list /\
    map call_prompt new = SCRIPTED_PROMPTS /\
    map (fun c => current_prompt (call_session c)) new =
      seq 0 (length SCRIPTED_PROMPTS) /\
    Forall (fun c => progress (call_session c) =
                     progress_at (current_prompt (call_session c))) new /\
    Forall (fun c => call_model c = model (conversation_state st) /\
                     step (call_session c) = 3 /\
                     is_processing (call_session c) = true /\
                     final_response (call_session c) =
                       final_response (conversation_state st)) (new ++ [fin]) /\
    chained (history (conversation_state st)) (new ++ [fin]) /\
    call_prompt fin = COMPILE_PROMPT /\
    progress (call_session fin) =
      last (map (fun c => progress (call_session c)) new) 0 /\
    status (call_session fin) = "Finalizing document" /\
    conversation_state st' =
      mkSession (history (conversation_state st) ++ flat_map call_turns new)
                4 (model (conversation_state st)) (call_reply fin)
                (current_prompt (call_session fin)) 100 "Complete" false /\
    threads st' = threads st /\ files st' = files st.
Proof.
  unfold process_all_scripted_prompts.
  do 3 (unfold bind at 1; unfold modify at 1;
        unfold bind at 1, get_state at 1, put_state at 1).
  cbn [conversation_state world calls threads files].
  match goal with
  | |- context [bind (scripted_loop post 0 SCRIPTED_PROMPTS) _ ?x] => set (st0 := x)
  end.
  destruct (scripted_loop_spec SCRIPTED_PROMPTS 0 st0 names_cover_script)
    as (new & st1 & Hrun & Hcalls & Hprompts & Hcur & Hall
        & Hchain & Hhist & Hsame & Hprog & Hthr & Hfiles).
  unfold bind at 1. rewrite Hrun.
  unfold bind at 1; unfold modify at 1;
    unfold bind at 1, get_state at 1, put_state at 1.
  unfold bind at 1. unfold get_state at 1.
  unfold bind at 1. rewrite get_chatgpt_response_history.
  do 4 (unfold bind at 1; unfold modify at 1;
        unfold bind at 1, get_state at 1, put_state at 1).
  unfold modify, bind, get_state, put_state.
  cbn [conversation_state world calls threads files].
  set (s1 := with_status "Finalizing document" (conversation_state st1)).
  set (o := fst (post (world st1) (model s1) (history s1 ++ [user_turn COMPILE_PROMPT]))).
  set (fin := mkCall (model s1) (history s1 ++ [user_turn COMPILE_PROMPT]) o s1).
  destruct Hsame as (Hstep & Hmodel & Hfinal & Hproc).
  subst st0. cbn [conversation_state world calls threads files
                  history step model final_response current_prompt progress
                  status is_processing with_progress with_step with_is_processing]
    in Hcalls, Hall, Hchain, Hhist, Hstep, Hmodel, Hfinal, Hproc, Hprog, Hthr, Hfiles.
  assert (Hfin : call_prompt fin = COMPILE_PROMPT) by apply call_prompt_appended.
  exists new, fin. eexists. split; [reflexivity|].
  cbn [conversation_state world calls threads files].
  split; [rewrite Hcalls, <- app_assoc; reflexivity|].
  split; [exact Hprompts|].
  split; [exact Hcur|].
  split.
  { eapply Forall_impl; [|exact Hall]. intros c (H1 & _). exact H1. }
  split.
  { apply Forall_app. split.
    - eapply Forall_impl; [|exact Hall].
      intros c (_ & H2 & H3 & H4 & H5 & H6). repeat split; assumption.
    - constructor; [|constructor]. subst fin s1. cbn.
      repeat split; assumption. }
  split.
  { apply chained_app; [exact Hchain|].
    cbn [chained]. rewrite Hfin. subst fin s1. cbn.
    repeat split; [exact Hhist|rewrite Hhist; reflexivity]. }
  split; [exact Hfin|].
  split; [subst fin s1; cbn; exact Hprog|].
  split; [reflexivity|].
  split.
  { subst fin s1.
    unfold call_reply, with_is_processing, with_status, with_progress, with_step,
      with_final_response.
    cbn [call_outcome call_session history step model final_response
         current_prompt progress status is_processing].
    rewrite Hhist, Hmodel. reflexivity. }
  split; assumption.
Qed.

Lemma script_length : length SCRIPTED_PROMPTS = 11%nat.
Proof. reflexivity. Qed.

Lemma chained_last (a : list Call) (c : Call) :
  forall h : list Turn,
    chained h (a ++ [c]) ->
    history (call_session c) = (h ++ flat_map call_turns a)%list.
Proof.
  induction a as [|x a IH]; intros h H.
  - destruct H as (H1 & _). simpl. rewrite app_nil_r. exact H1.
  - destruct H as (_ & _ & H3).
    cbn [flat_map]. rewrite app_assoc. apply IH. exact H3.
Qed.

(** The [i]-th call of the loop is the call for entry [i]. *)
Lemma indexed_call (new : list Call) (n i : nat) (c : Call) :
  map (fun c => current_prompt (call_session c)) new = seq 0 n ->
  nth_error new i = Some c ->
  (i < n)%nat /\ current_prompt (call_session c) = i.
Proof.
  intros Hcur Hc.
  assert (Hlen : length new = n).
  { rewrite <- (length_map (fun c => current_prompt (call_session c))), Hcur.
    apply length_seq. }
  assert (Hi : (i < n)%nat).
  { rewrite <- Hlen. apply nth_error_Some. congruence. }
  split; [exact Hi|].
  apply (map_nth_error (fun c => current_prompt (call_session c))) in Hc.
  rewrite Hcur in Hc.
  apply (nth_error_nth _ _ 0%nat) in Hc.
  rewrite seq_nth in Hc by exact Hi. simpl in Hc. congruence.
Qed.

Lemma loop_progress_zero (new : list Call) :
  map (fun c => current_prompt (call_session c)) new =
    seq 0 (length SCRIPTED_PROMPTS) ->
  Forall (fun c => progress (call_session c) =
                   progress_at (current_prompt (call_session c))) new ->
  Forall (fun c => progress (call_session c) = 0) new.
Proof.
  intros Hcur Hall. apply Forall_forall. intros c Hin.
  destruct (In_nth_error _ _ Hin) as (i & Hi).
  destruct (indexed_call _ _ _ _ Hcur Hi) as (Hlt & Hidx).
  rewrite Forall_forall in Hall. rewrite (Hall c Hin), Hidx.
  apply progress_at_small. exact Hlt.
Qed.

Lemma last_all_zero (l : list Call) :
  Forall (fun c => progress (call_session c) = 0) l ->
  last (map (fun c => progress (call_session c)) l) 0 = 0.
Proof.
  induction 1 as [|c l Hc Hl IH].
  - reflexivity.
  - cbn [map]. rewrite last_cons_default, Hc. exact IH.
Qed.

Lemma length_call_turns (l : list Call) :
  length (flat_map call_turns l) = (2 * length l)%nat.
Proof.
  induction l as [|c l IH].
  - reflexivity.
  - cbn [flat_map call_turns app length]. rewrite IH. lia.
Qed.

(** ** The routes, run from any store *)

Lemma index_template_0 (st : Store World) :
  index INTERACTIVE_PROMPT_TEMPLATES 0 st =
  Ok (nth 0 INTERACTIVE_PROMPT_TEMPLATES "") st.
Proof. reflexivity. Qed.

Lemma index_template_1 (st : Store World) :
  index INTERACTIVE_PROMPT_TEMPLATES 1 st =
  Ok (nth 1 INTERACTIVE_PROMPT_TEMPLATES "") st.
Proof. reflexivity. Qed.

Lemma start_conversation_run (f : form) (st : Store World) :
  let m := form_get f "model" "gpt-4o" in
  let fresh := mkSession [] 0 m None 0 0 "Starting..." false in
  let o := fst (post (world st) m [user_turn INITIAL_PROMPT]) in
  start_conversation post f st =
  Ok (Jsonify 200
        [("response", json_of_text (reply_text o));
         ("step", JInt 1);
         ("user_prompt", JStr "Please enter your target niche information:");
         ("status", JStr "Starting...")])
     (mkStore (snd (post (world st) m [user_turn INITIAL_PROMPT]))
              (mkSession [user_turn INITIAL_PROMPT; assistant_turn (reply_text o)]
                         1 m None 0 0 "Starting..." false)
              (calls st ++ [mkCall m [user_turn INITIAL_PROMPT] o fresh])
              (threads st) (files st)).
Proof.
  intros m fresh o. unfold start_conversation.
  unfold bind at 1. unfold index at 1.
  cbn [nth_error AVAILABLE_MODELS]. unfold ret at 1.
  unfold bind at 1. unfold put_state at 1.
  unfold bind at 1. unfold get_state at 1.
  cbn [conversation_state model].
  unfold bind at 1. rewrite get_chatgpt_response_fresh.
  unfold bind at 1. unfold extend_history at 1. unfold modify at 1.
  unfold bind at 1, get_state at 1, put_state at 1.
  run_modify.
  unfold bind, get_state, ret.
  reflexivity.
Qed.

Lemma next_step_niche (f : form) (st : Store World) :
  step (conversation_state st) = 1 ->
  let s := conversation_state st in
  let messages := (history s ++ [user_turn (niche_prompt f)])%list in
  let o := fst (post (world st) (model s) messages) in
  next_step post f st =
  Ok (Jsonify 200
        [("response", json_of_text (reply_text o));
         ("step", JInt 2);
         ("user_prompt", JStr "Now please provide context about your company and offer:");
         ("status", JStr (status s))])
     (mkStore (snd (post (world st) (model s) messages))
              (with_step 2
                 (with_history
                    (history s ++ [user_turn (niche_prompt f);
                                   assistant_turn (reply_text o)]) s))
              (calls st ++ [mkCall (model s) messages o s])
              (threads st) (files st)).
Proof.
  intros Hstep s messages o. unfold next_step.
  unfold bind at 1. unfold get_state at 1. rewrite Hstep.
  cbn [Z.eqb Pos.eqb].
  unfold bind at 1. rewrite index_template_0.
  unfold bind at 1. unfold str_format at 1.
  rewrite format_niche_template. unfold ret at 1.
  unfold bind at 1. rewrite get_chatgpt_response_history.
  unfold bind at 1. unfold extend_history at 1. unfold modify at 1.
  unfold bind at 1, get_state at 1, put_state at 1.
  run_modify.
  unfold bind, get_state, ret.
  reflexivity.
Qed.

Lemma start_batch_thread_run (st : Store World) :
  start_batch_thread st =
  Ok tt (mkStore (world st) (thread_started (conversation_state st)) (calls st)
                 (S (threads st)) (files st)).
Proof. reflexivity. Qed.

Lemma next_step_offer (f : form) (st : Store World) :
  step (conversation_state st) = 2 ->
  let s := conversation_state st in
  let messages := (history s ++ [user_turn (offer_prompt f)])%list in
  let o := fst (post (world st) (model s) messages) in
  let s' := with_history
              (history s ++ [user_turn (offer_prompt f);
                             assistant_turn (reply_text o)]) s in
  next_step post f st =
  Ok (Jsonify 200
        [("response", JStr ACK_MESSAGE);
         ("step", JInt 3);
         ("status", JStr "Starting analysis...");
         ("progress", JInt 0);
         ("auto_proceed", JBool false)])
     (mkStore (snd (post (world st) (model s) messages))
              (if is_processing s then s' else thread_started s')
              (calls st ++ [mkCall (model s) messages o s])
              (if is_processing s then threads st else S (threads st))
              (files st)).
Proof.
  intros Hstep s messages o s'. unfold next_step.
  unfold bind at 1. unfold get_state at 1. rewrite Hstep.
  cbn [Z.eqb Pos.eqb].
  unfold bind at 1. rewrite index_template_1.
  unfold bind at 1. unfold str_format at 1.
  rewrite format_offer_template. unfold ret at 1.
  unfold bind at 1. rewrite get_chatgpt_response_history.
  unfold bind at 1. unfold extend_history at 1. unfold modify at 1.
  unfold bind at 1, get_state at 1, put_state at 1.
  unfold bind at 1. unfold get_state at 1.
  cbn [conversation_state is_processing with_history].
  unfold bind at 1. subst s' o messages s.
  destruct (is_processing (conversation_state st)) eqn:Hbusy; cbn [negb].
  - reflexivity.
  - rewrite start_batch_thread_run. reflexivity.
Qed.

Lemma next_step_elsewhere (f : form) (st : Store World) :
  step (conversation_state st) <> 1 ->
  step (conversation_state st) <> 2 ->
  next_step post f st = Ok (Jsonify 200 [("error", JStr "Invalid step")]) st.
Proof.
  intros H1 H2. unfold next_step.
  unfold bind at 1. unfold get_state at 1.
  apply Z.eqb_neq in H1, H2. rewrite H1, H2. reflexivity.
Qed.

Lemma path_eqb_refl (p : string * string) : path_eqb p p = true.
Proof. unfold path_eqb. rewrite !String.eqb_refl. reflexivity. Qed.

Lemma path_eqb_eq (p q : string * string) : path_eqb p q = true <-> p = q.
Proof.
  destruct p as [d n], q as [d' n']. unfold path_eqb. cbn [fst snd].
  rewrite andb_true_iff, !String.eqb_eq. split.
  - intros (-> & ->). reflexivity.
  - intros [= -> ->]. split; reflexivity.
Qed.

Lemma download_run (st : Store World) :
  download st =
  match final_response (conversation_state st) with
  | Some (String a rest) =>
      let st' := mkStore (world st) (conversation_state st) (calls st) (threads st)
                         (written (String a rest) (files st)) in
      match file_lookup (contents (files st')) (root_path (files st), DOCUMENT_NAME) with
      | Some data => Ok (Attachment DOCUMENT_NAME data) st'
      | None => Raise NotFound st'
      end
  | _ => Ok NOT_READY st
  end.
Proof.
  unfold download, bind, get_state.
  destruct (final_response (conversation_state st)) as [[|a rest]|];
    reflexivity.
Qed.

Lemma get_final_response_run (st : Store World) :
  get_final_response st =
  if step (conversation_state st) =? 4
  then Ok (Jsonify 200
             [("response", json_of_text (final_response (conversation_state st)))]) st
  else Ok NOT_READY st.
Proof.
  unfold get_final_response, bind, get_state.
  destruct (step (conversation_state st) =? 4); reflexivity.
Qed.

Lemma get_progress_store (st : Store World) :
  exists r : response, get_progress st = Ok r st.
Proof. eexists. unfold get_progress, bind, get_state, ret. reflexivity. Qed.


(** ** The batch runner, part by part *)

Lemma batch_prologue_run (st : Store World) :
  batch_prologue st =
  Ok tt (mkStore (world st)
                 (with_progress 0
                    (with_step 3 (with_is_processing true (conversation_state st))))
                 (calls st) (threads st) (files st)).
Proof. reflexivity. Qed.

Lemma batch_epilogue_run (st : Store World) :
  let s := conversation_state st in
  let messages := (history s ++ [user_turn COMPILE_PROMPT])%list in
  let o := fst (post (world st) (model s) messages) in
  batch_epilogue post st =
  Ok tt (mkStore (snd (post (world st) (model s) messages))
                 (mkSession (history s) 4 (model s) (reply_text o)
                            (current_prompt s) 100 "Complete" false)
                 (calls st ++ [mkCall (model s) messages o
                                      (with_status "Finalizing document" s)])
                 (threads st) (files st)).
Proof.
  intros s messages o. unfold batch_epilogue.
  run_modify.
  unfold bind at 1. unfold get_state at 1.
  unfold bind at 1. rewrite get_chatgpt_response_history.
  do 4 run_modify.
  unfold modify, bind, get_state, put_state.
  reflexivity.
Qed.

(** One turn of the loop. *)
Lemma scripted_loop_entry (i : nat) (name prompt : string) (rest : list string)
      (st : Store World) :
  nth_error PROMPT_NAMES i = Some name ->
  let s := with_progress (progress_at i)
             (with_status name (with_current_prompt i (conversation_state st))) in
  let messages := (history s ++ [user_turn prompt])%list in
  let o := fst (post (world st) (model s) messages) in
  scripted_loop post i (prompt :: rest) st =
  scripted_loop post (S i) rest
    (mkStore (snd (post (world st) (model s) messages))
             (with_history (history s ++ [user_turn prompt;
                                          assistant_turn (reply_text o)]) s)
             (calls st ++ [mkCall (model s) messages o s])
             (threads st) (files st)).
Proof.
  intros Hname s messages o.
  cbn [scripted_loop].
  run_modify.
  unfold bind at 1. unfold index at 1. rewrite Hname. unfold ret at 1.
  do 2 run_modify.
  unfold bind at 1. unfold get_state at 1.
  unfold bind at 1. rewrite get_chatgpt_response_history.
  unfold bind at 1. unfold extend_history at 1, modify at 1.
  unfold bind at 1, get_state at 1, put_state at 1.
  reflexivity.
Qed.

(** The loop over a list in two parts. *)
Lemma scripted_loop_app (a b : list string) :
  forall (i : nat) (st : Store World),
    scripted_loop post i (a ++ b) st =
    bind (scripted_loop post i a)
         (fun _ => scripted_loop post (i + length a) b) st.
Proof.
  induction a as [|prompt a IH]; intros i st.
  - cbn [app length scripted_loop]. unfold bind, ret.
    rewrite Nat.add_0_r. reflexivity.
  - change ((prompt :: a) ++ b)%list with (prompt :: (a ++ b))%list.
    destruct (nth_error PROMPT_NAMES i) as [name|] eqn:Hname.
    + rewrite (scripted_loop_entry i name prompt (a ++ b) st Hname).
      unfold bind at 1.
      rewrite (scripted_loop_entry i name prompt a st Hname).
      cbv zeta. rewrite IH. unfold bind at 1.
      cbn [length]. rewrite Nat.add_succ_r. reflexivity.
    + cbn [scripted_loop].
      unfold bind at 1. unfold bind at 1. unfold modify at 1.
      unfold bind at 1, get_state at 1, put_state at 1.
      unfold bind at 1. unfold index at 1. rewrite Hname. unfold raise at 1.
      unfold bind at 1. unfold bind at 1. unfold modify at 1.
      unfold bind at 1, get_state at 1, put_state at 1.
      unfold bind at 1. unfold index at 1. rewrite Hname. unfold raise at 1.
      reflexivity.
Qed.

Lemma process_all_scripted_prompts_unfold (st : Store World) :
  process_all_scripted_prompts post st =
  bind (scripted_loop post 0 SCRIPTED_PROMPTS) (fun _ => batch_epilogue post)
       (mkStore (world st)
                (with_progress 0
                   (with_step 3 (with_is_processing true (conversation_state st))))
                (calls st) (threads st) (files st)).
Proof.
  unfold process_all_scripted_prompts. do 3 run_modify. reflexivity.
Qed.

Lemma loop_then (l : list string) (k : nat) (rest : M World unit) (st : Store World) :
  bind (scripted_loop post 0 l) (fun _ => rest) st =
  match scripted_loop post 0 (firstn k l) st with
  | Ok _ st' =>
      bind (scripted_loop post (length (firstn k l)) (skipn k l)) (fun _ => rest) st'
  | Raise e st' => Raise e st'
  end.
Proof.
  assert (Hl : l = (firstn k l ++ skipn k l)%list) by (symmetry; apply firstn_skipn).
  remember (firstn k l) as a eqn:Ha. remember (skipn k l) as b eqn:Hb.
  clear Ha Hb. subst l.
  unfold bind at 1. rewrite scripted_loop_app. unfold bind at 1.
  destruct (scripted_loop post 0 a st) as [[] st'|e st']; reflexivity.
Qed.

(** The runner is its part up to entry [k] followed by its part from
    entry [k] on. *)
Lemma process_all_scripted_prompts_parts (k : nat) (st : Store World) :
  (k <= length SCRIPTED_PROMPTS)%nat ->
  process_all_scripted_prompts post st =
  bind (batch_until post k) (fun _ => batch_from post k) st.
Proof.
  intros Hk. rewrite process_all_scripted_prompts_unfold.
  rewrite (loop_then SCRIPTED_PROMPTS k).
  rewrite (firstn_length_le _ Hk).
  unfold batch_until, batch_from. reflexivity.
Qed.

(** The labels shown while the loop runs. *)
Lemma scripted_loop_labels (prompts : list string) :
  forall (i : nat) (st : Store World),
    (i + length prompts <= length PROMPT_NAMES)%nat ->
    exists (new : list Call) (st' : Store World),
      scripted_loop post i prompts st = Ok tt st' /\
      calls st' = (calls st ++ new)%list /\
      Forall (fun c => nth_error PROMPT_NAMES (current_prompt (call_session c)) =
                       Some (status (call_session c))) new /\
      current_prompt (conversation_state st') =
        last (map (fun c => current_prompt (call_session c)) new)
             (current_prompt (conversation_state st)) /\
      status (conversation_state st') =
        last (map (fun c => status (call_session c)) new)
             (status (conversation_state st)).
Proof.
  induction prompts as [|prompt rest IH]; intros i st Hlen.
  - exists [], st. cbn [scripted_loop]. unfold ret.
    rewrite app_nil_r. repeat split. constructor.
  - change (length (prompt :: rest)) with (S (length rest)) in Hlen.
    destruct (nth_error PROMPT_NAMES i) as [name|] eqn:Hname.
    2:{ apply nth_error_None in Hname. lia. }
    rewrite (scripted_loop_entry i name prompt rest st Hname). cbv zeta.
    match goal with
    | |- context [scripted_loop post (S i) rest ?x] => set (st1 := x)
    end.
    destruct (IH (S i) st1) as (new & st' & Hrun & Hcalls & Hall & Hcur & Hstatus).
    { lia. }
    match type of Hcalls with
    | _ = (calls st1 ++ _)%list =>
        subst st1; cbn [calls conversation_state] in Hcalls, Hcur, Hstatus
    end.
    match type of Hcalls with
    | _ = ((_ ++ [?c]) ++ _)%list => exists (c :: new), st'
    end.
    split; [exact Hrun|].
    split; [rewrite Hcalls, <- app_assoc; reflexivity|].
    split.
    { constructor; [|exact Hall]. cbn. exact Hname. }
    cbn [map]. rewrite !last_cons_default.
    split; [exact Hcur|exact Hstatus].
Qed.

Lemma rest_of_script_fits (k : nat) :
  (k <= length SCRIPTED_PROMPTS)%nat ->
  (k + length (skipn k SCRIPTED_PROMPTS) <= length PROMPT_NAMES)%nat.
Proof.
  intros Hk. rewrite length_skipn.
  pose proof names_cover_script as Hfit. lia.
Qed.

(** The runner from entry [k] on, started in any store: [new] are the
    calls for the entries left, [fin] is the final call. *)
Lemma batch_from_run (k : nat) (st : Store World) :
  (k <= length SCRIPTED_PROMPTS)%nat ->
  exists (new : list Call) (fin : Call) (st' : Store World),
    batch_from post k st = Ok tt st' /\
    calls st' = (calls st ++ new ++ [fin])%list /\
    map call_prompt new = skipn k SCRIPTED_PROMPTS /\
    map (fun c => current_prompt (call_session c)) new =
      seq k (length SCRIPTED_PROMPTS - k) /\
    Forall (fun c => nth_error PROMPT_NAMES (current_prompt (call_session c)) =
                     Some (status (call_session c))) new /\
    Forall (fun c => call_model c = model (conversation_state st))
           (new ++ [fin]) /\
    chained (history (conversation_state st)) (new ++ [fin]) /\
    call_prompt fin = COMPILE_PROMPT /\
    status (call_session fin) = "Finalizing document" /\
    model (call_session fin) = model (conversation_state st) /\
    conversation_state st' =
      mkSession (history (conversation_state st) ++ flat_map call_turns new)
                4 (model (conversation_state st)) (call_reply fin)
                (last (map (fun c => current_prompt (call_session c)) new)
                      (current_prompt (conversation_state st)))
                100 "Complete" false /\
    threads st' = threads st /\ files st' = files st.
Proof.
  intros Hk. pose proof (rest_of_script_fits k Hk) as Hfit.
  destruct (scripted_loop_spec (skipn k SCRIPTED_PROMPTS) k st Hfit)
    as (new & st1 & Hrun & Hcalls & Hprompts & Hcur & Hall
        & Hchain & Hhist & Hsame & _ & Hthr & Hfiles).
  destruct (scripted_loop_labels (skipn k SCRIPTED_PROMPTS) k st Hfit)
    as (new' & st1' & Hrun' & Hcalls' & Hlabels & Hlast & _).
  rewrite Hrun in Hrun'. injection Hrun' as <-.
  rewrite Hcalls in Hcalls'. apply app_inv_head in Hcalls'. subst new'.
  rewrite length_skipn in Hcur.
  destruct Hsame as (_ & Hmodel & _).
  unfold batch_from. unfold bind at 1. rewrite Hrun.
  rewrite batch_epilogue_run. cbv zeta.
  match goal with
  | |- context [mkCall ?a ?b ?o ?d] => set (fin := mkCall a b o d)
  end.
  assert (Hfin : call_prompt fin = COMPILE_PROMPT) by apply call_prompt_appended.
  exists new, fin. eexists. split; [reflexivity|].
  cbn [calls conversation_state threads files].
  split; [rewrite Hcalls, <- app_assoc; reflexivity|].
  split; [exact Hprompts|].
  split; [exact Hcur|].
  split; [exact Hlabels|].
  split.
  { apply Forall_app. split.
    - eapply Forall_impl; [|exact Hall]. intros c (_ & H & _). exact H.
    - constructor; [|constructor]. subst fin. cbn [call_model]. exact Hmodel. }
  split.
  { apply chained_app; [exact Hchain|].
    cbn [chained]. rewrite Hfin. subst fin.
    cbn [call_session call_messages with_status history].
    repeat split; [exact Hhist|rewrite Hhist; reflexivity]. }
  split; [exact Hfin|].
  split; [reflexivity|].
  split; [exact Hmodel|].
  split.
  { subst fin. unfold call_reply. cbn [call_outcome].
    rewrite Hhist, Hmodel, Hlast. reflexivity. }
  split; assumption.
Qed.

Lemma last_any_default {A} (l : list A) (d d' : A) :
  l <> [] -> last l d = last l d'.
Proof.
  destruct l as [|x l]; [congruence|]. intros _.
  rewrite !last_cons_default. reflexivity.
Qed.

(** The whole runner, with the labels of its calls. *)
Lemma process_all_scripted_prompts_report (st : Store World) :
  exists (new : list Call) (fin : Call) (st' : Store World),
    process_all_scripted_prompts post st = Ok tt st' /\
    calls st' = (calls st ++ new ++ [fin])%list /\
    map call_prompt new = SCRIPTED_PROMPTS /\
    map (fun c => current_prompt (call_session c)) new =
      seq 0 (length SCRIPTED_PROMPTS) /\
    Forall (fun c => nth_error PROMPT_NAMES (current_prompt (call_session c)) =
                     Some (status (call_session c))) new /\
    Forall (fun c => call_model c = model (conversation_state st))
           (new ++ [fin]) /\
    chained (history (conversation_state st)) (new ++ [fin]) /\
    call_prompt fin = COMPILE_PROMPT /\
    call_session fin =
      mkSession (history (conversation_state st) ++ flat_map call_turns new)
                3 (model (conversation_state st))
                (final_response (conversation_state st))
                10 0 "Finalizing document" true /\
    conversation_state st' =
      mkSession (history (conversation_state st) ++ flat_map call_turns new)
                4 (model (conversation_state st)) (call_reply fin)
                10 100 "Complete" false /\
    threads st' = threads st /\ files st' = files st.
Proof.
  destruct (process_all_scripted_prompts_spec st)
    as (new & fin & st' & Hrun & Hcalls & Hprompts & Hcur & Hprog & Hall & Hchain
        & Hfin & Hfinprog & Hfinstatus & Hst' & Hthr & Hfiles).
  rewrite (process_all_scripted_prompts_parts 0 st (Nat.le_0_l _)) in Hrun.
  unfold bind at 1 in Hrun.
  change (batch_until post 0 st) with (batch_prologue st) in Hrun.
  rewrite batch_prologue_run in Hrun.
  match type of Hrun with
  | batch_from post 0 ?x = _ =>
      destruct (batch_from_run 0 x (Nat.le_0_l _))
        as (new' & fin' & st2 & Hrun' & Hcalls' & _ & Hcur' & Hlabels & Hmodels
            & _ & _ & Hstatus' & Hmodel' & Hst2 & _)
  end.
  rewrite Hrun in Hrun'. injection Hrun' as <-.
  cbn [calls conversation_state model with_progress with_step with_is_processing]
    in Hcalls', Hst2, Hmodels, Hmodel'.
  rewrite Hcalls in Hcalls'. apply app_inv_head in Hcalls'.
  apply app_inj_tail in Hcalls'. destruct Hcalls' as (<- & <-).
  assert (Hten : last (map (fun c => current_prompt (call_session c)) new) 0%nat
                 = 10%nat).
  { rewrite Hcur. reflexivity. }
  assert (Hidx : current_prompt (conversation_state st') = 10%nat).
  { rewrite Hst2. cbn [current_prompt with_progress with_step with_is_processing].
    rewrite (last_any_default _ _ 0%nat); [exact Hten|].
    intros Hnil. rewrite Hnil in Hcur. discriminate Hcur. }
  exists new, fin, st'.
  split; [rewrite (process_all_scripted_prompts_parts 0 st (Nat.le_0_l _));
          unfold bind at 1; exact Hrun|].
  split; [exact Hcalls|]. split; [exact Hprompts|]. split; [exact Hcur|].
  split; [exact Hlabels|]. split; [exact Hmodels|]. split; [exact Hchain|].
  split; [exact Hfin|].
  split.
  { pose proof (chained_last new fin _ Hchain) as Hhist.
    pose proof (loop_progress_zero new Hcur Hprog) as Hzero.
    rewrite Forall_forall in Hall.
    destruct (Hall fin) as (_ & H3 & Hp & Hdoc).
    { apply in_or_app. right. left. reflexivity. }
    rewrite Hst' in Hidx. cbn [current_prompt] in Hidx.
    rewrite (last_all_zero new Hzero) in Hfinprog.
    destruct (call_session fin) as [h sp m d cp pr stt ip].
    cbn in *. subst. reflexivity. }
  split.
  { rewrite Hst' in Hidx |- *. cbn [current_prompt] in Hidx.
    rewrite Hidx. reflexivity. }
  split; assumption.
Qed.

Lemma batch_until_run (k : nat) (st : Store World) :
  exists st' : Store World, batch_until post k st = Ok tt st'.
Proof.
  unfold batch_until. unfold bind at 1. rewrite batch_prologue_run.
  match goal with
  | |- context [scripted_loop post 0 ?l ?x] =>
      destruct (scripted_loop_spec l 0 x) as (new & st' & Hrun & _)
  end.
  - rewrite length_firstn. pose proof names_cover_script. lia.
  - exists st'. exact Hrun.
Qed.

(** ** What the service answered *)

Lemma served_app (a b : list Call) :
  forall w w1 w2 : World,
    served post w a w1 -> served post w1 b w2 -> served post w (a ++ b) w2.
Proof.
  induction a as [|c a IH]; intros w w1 w2 Ha Hb.
  - cbn [served] in Ha. subst w1. exact Hb.
  - destruct Ha as (Hc & Ha). cbn [app served].
    split; [exact Hc|]. exact (IH _ _ _ Ha Hb).
Qed.

(** The outcomes recorded for the loop are those of the service. *)
Lemma scripted_loop_served (prompts : list string) :
  forall (i : nat) (st : Store World),
    (i + length prompts <= length PROMPT_NAMES)%nat ->
    exists (new : list Call) (st' : Store World),
      scripted_loop post i prompts st = Ok tt st' /\
      calls st' = (calls st ++ new)%list /\
      served post (world st) new (world st').
Proof.
  induction prompts as [|prompt rest IH]; intros i st Hlen.
  - exists [], st. cbn [scripted_loop served]. unfold ret.
    rewrite app_nil_r. repeat split.
  - change (length (prompt :: rest)) with (S (length rest)) in Hlen.
    destruct (nth_error PROMPT_NAMES i) as [name|] eqn:Hname.
    2:{ apply nth_error_None in Hname. lia. }
    rewrite (scripted_loop_entry i name prompt rest st Hname). cbv zeta.
    match goal with
    | |- context [scripted_loop post (S i) rest ?x] => set (st1 := x)
    end.
    destruct (IH (S i) st1) as (new & st' & Hrun & Hcalls & Hserved).
    { lia. }
    subst st1. cbn [calls world] in Hcalls, Hserved.
    match type of Hcalls with
    | _ = ((_ ++ [?c]) ++ _)%list => exists (c :: new), st'
    end.
    split; [exact Hrun|].
    split; [rewrite Hcalls, <- app_assoc; reflexivity|].
    cbn [served call_outcome call_model call_messages].
    split; [reflexivity|exact Hserved].
Qed.

Lemma process_all_scripted_prompts_served (st : Store World) :
  exists (run : list Call) (st' : Store World),
    process_all_scripted_prompts post st = Ok tt st' /\
    calls st' = (calls st ++ run)%list /\
    served post (world st) run (world st').
Proof.
  rewrite process_all_scripted_prompts_unfold.
  match goal with
  | |- context [bind _ _ ?x] => set (st0 := x)
  end.
  destruct (scripted_loop_served SCRIPTED_PROMPTS 0 st0 names_cover_script)
    as (new & st1 & Hrun & Hcalls & Hserved).
  unfold bind at 1. rewrite Hrun. rewrite batch_epilogue_run. cbv zeta.
  match goal with
  | |- context [mkCall ?a ?b ?o ?d] => set (fin := mkCall a b o d)
  end.
  exists (new ++ [fin])%list. eexists. split; [reflexivity|].
  cbn [calls world].
  split; [rewrite Hcalls, <- app_assoc; reflexivity|].
  apply (served_app new [fin] _ (world st1)); [exact Hserved|].
  subst fin. cbn [served call_outcome call_model call_messages].
  split; reflexivity.
Qed.

(** ** Processing only while running *)

(** [is_processing] is true only in step 3: this holds at the start and
    every operation keeps it, the parts of the runner too. *)
Lemma idle_unless_running_kept :
  idle_unless_running conversation_state0 /\
  (forall (f : form) (st : Store World),
      idle_unless_running
        (conversation_state (final_store (start_conversation post f st)))) /\
  (forall (f : form) (st : Store World),
      idle_unless_running (conversation_state st) ->
      idle_unless_running
        (conversation_state (final_store (next_step post f st)))) /\
  (forall st : Store World,
      idle_unless_running
        (conversation_state (final_store (process_all_scripted_prompts post st)))) /\
  (forall (k : nat) (st : Store World),
      (k <= length SCRIPTED_PROMPTS)%nat ->
      idle_unless_running
        (conversation_state (final_store (batch_from post k st)))) /\
  (forall st : Store World,
      idle_unless_running (conversation_state st) ->
      idle_unless_running (conversation_state (final_store (get_progress st))) /\
      idle_unless_running
        (conversation_state (final_store (get_final_response st))) /\
      idle_unless_running (conversation_state (final_store (download st)))).
Proof.
  unfold idle_unless_running.
  split; [cbn; discriminate|].
  split.
  { intros f st. rewrite start_conversation_run. cbn. discriminate. }
  split.
  { intros f st Hidle.
    destruct (Z.eq_dec (step (conversation_state st)) 1) as [H1|H1];
      [|destruct (Z.eq_dec (step (conversation_state st)) 2) as [H2|H2]].
    - rewrite (next_step_niche f st H1). cbn.
      intros Hbusy. apply Hidle in Hbusy. congruence.
    - rewrite (next_step_offer f st H2). cbv zeta.
      cbn [final_store conversation_state].
      destruct (is_processing (conversation_state st)) eqn:Hbusy.
      + intros _. cbn. rewrite (Hidle eq_refl) in H2. discriminate H2.
      + intros _. reflexivity.
    - rewrite (next_step_elsewhere f st H1 H2). exact Hidle. }
  split.
  { intros st.
    destruct (process_all_scripted_prompts_spec st)
      as (new & fin & st' & Hrun & _ & _ & _ & _ & _ & _ & _ & _ & _ & Hst' & _).
    rewrite Hrun. cbn [final_store]. rewrite Hst'. cbn. discriminate. }
  split.
  { intros k st Hk.
    destruct (batch_from_run k st Hk)
      as (new & fin & st' & Hrun & _ & _ & _ & _ & _ & _ & _ & _ & _ & Hst' & _).
    rewrite Hrun. cbn [final_store]. rewrite Hst'. cbn. discriminate. }
  intros st Hidle. split; [|split].
  - destruct (get_progress_store st) as (r & Hr). rewrite Hr. exact Hidle.
  - rewrite get_final_response_run.
    destruct (step (conversation_state st) =? 4); exact Hidle.
  - rewrite download_run.
    destruct (final_response (conversation_state st)) as [[|a rest]|];
      try exact Hidle.
    cbv zeta.
    match goal with
    | |- context [file_lookup ?fs ?p] => destruct (file_lookup fs p)
    end; exact Hidle.
Qed.

(** ** The document on disk *)

Lemma file_lookup_remove_other (p q : string * string)
      (fs : list ((string * string) * string)) :
  p <> q -> file_lookup (remove_file p fs) q = file_lookup fs q.
Proof.
  intros Hne. induction fs as [|[k d] fs IH]; [reflexivity|].
  cbn [remove_file file_lookup].
  destruct (path_eqb k p) eqn:Hkp.
  - apply path_eqb_eq in Hkp. subst k. rewrite IH.
    destruct (path_eqb p q) eqn:Hpq; [|reflexivity].
    apply path_eqb_eq in Hpq. contradiction.
  - cbn [file_lookup]. rewrite IH. reflexivity.
Qed.

Lemma remove_file_twice (p : string * string)
      (fs : list ((string * string) * string)) :
  remove_file p (remove_file p fs) = remove_file p fs.
Proof.
  induction fs as [|[k d] fs IH]; [reflexivity|].
  cbn [remove_file]. destruct (path_eqb k p) eqn:Hk.
  - exact IH.
  - cbn [remove_file]. rewrite Hk, IH. reflexivity.
Qed.

(** What a path holds once the document is written. *)
Lemma file_lookup_written (text : string) (d : Disk) (q : string * string) :
  file_lookup (contents (written text d)) q =
  if path_eqb (working_directory d, DOCUMENT_NAME) q then Some text
  else file_lookup (contents d) q.
Proof.
  unfold written. cbn [contents file_lookup].
  destruct (path_eqb (working_directory d, DOCUMENT_NAME) q) eqn:Hq;
    [reflexivity|].
  apply file_lookup_remove_other. intros Heq.
  rewrite Heq, path_eqb_refl in Hq. discriminate Hq.
Qed.

Lemma served_path_eqb (d : Disk) :
  path_eqb (working_directory d, DOCUMENT_NAME) (root_path d, DOCUMENT_NAME) = true
  <-> working_directory d = root_path d.
Proof.
  rewrite path_eqb_eq. split.
  - intros [= H]. exact H.
  - intros ->. reflexivity.
Qed.

(** [/download] in the directory of the application. *)
Lemma download_at_root (text : string) (st : Store World) :
  working_directory (files st) = root_path (files st) ->
  final_response (conversation_state st) = Some text ->
  text <> "" ->
  download st =
  Ok (Attachment DOCUMENT_NAME text)
     (mkStore (world st) (conversation_state st) (calls st) (threads st)
              (written text (files st))).
Proof.
  intros Hroot Hdoc Hne. rewrite download_run, Hdoc.
  destruct text as [|a rest]; [contradiction Hne; reflexivity|].
  cbv zeta. cbn [files]. rewrite file_lookup_written.
  rewrite (proj2 (served_path_eqb (files st)) Hroot). reflexivity.
Qed.


(** ** The thread, once started *)

(** What is left of the thread's work when [Thread.start] has returned
    is the runner itself: the assignments the thread has made by then
    are made again with the same values. *)
Lemma runner_after_thread_start (st : Store World) :
  process_all_scripted_prompts post
    (mkStore (world st) (thread_started (conversation_state st)) (calls st)
             (S (threads st)) (files st)) =
  process_all_scripted_prompts post
    (mkStore (world st) (conversation_state st) (calls st)
             (S (threads st)) (files st)).
Proof.
  rewrite !process_all_scripted_prompts_unfold.
  cbn [world conversation_state calls threads files].
  unfold bind at 1 2.
  assert (Hname : nth_error PROMPT_NAMES 0 = Some (nth 0 PROMPT_NAMES ""))
    by reflexivity.
  unfold SCRIPTED_PROMPTS.
  rewrite !(scripted_loop_entry 0 _ _ _ _ Hname).
  reflexivity.
Qed.

(** The runner up to entry [k] leaves the session running. *)
Lemma batch_until_running (k : nat) (st : Store World) :
  exists st' : Store World,
    batch_until post k st = Ok tt st' /\
    step (conversation_state st') = 3 /\
    is_processing (conversation_state st') = true /\
    threads st' = threads st /\ files st' = files st.
Proof.
  unfold batch_until. unfold bind at 1. rewrite batch_prologue_run.
  match goal with
  | |- context [scripted_loop post 0 ?l ?x] =>
      destruct (scripted_loop_spec l 0 x)
        as (new & st' & Hrun & _ & _ & _ & _ & _ & _ & Hsame & _ & Hthr & Hfiles)
  end.
  - rewrite length_firstn. pose proof names_cover_script. lia.
  - destruct Hsame as (Hstep & _ & _ & Hproc).
    exists st'. split; [exact Hrun|].
    repeat split; assumption.
Qed.

(** ** The claims *)

(** C1: during the batch run, the progress written before the call for
    entry [i], [i < 11], is [floor(i / 11) * 100], which is 0; no call of
    the run, the final compilation call included, sees another value,
    and the progress is 100 once the runner has returned. *)
Theorem progress_zero_until_complete (st : Store World) :
  exists (new : list Call) (st' : Store World),
    process_all_scripted_prompts post st = Ok tt st' /\
    calls st' = (calls st ++ new)%list /\
    length new = 12%nat /\
    (forall (i : nat) (c : Call),
        (i < 11)%nat -> nth_error new i = Some c ->
        current_prompt (call_session c) = i /\
        progress (call_session c) = Z.of_nat i / 11 * 100 /\
        progress (call_session c) = 0) /\
    (forall c : Call, In c new -> progress (call_session c) = 0) /\
    progress (conversation_state st') = 100.
Proof.
  destruct (process_all_scripted_prompts_spec st)
    as (new & fin & st' & Hrun & Hcalls & Hprompts & Hcur & Hprog & _ & _ & _
        & Hfin & _ & Hst' & _).
  pose proof (loop_progress_zero new Hcur Hprog) as Hzero.
  assert (Hlen : length new = 11%nat).
  { rewrite <- (length_map call_prompt), Hprompts. apply script_length. }
  exists (new ++ [fin])%list, st'.
  split; [exact Hrun|].
  split; [exact Hcalls|].
  split; [rewrite length_app, Hlen; reflexivity|].
  split.
  { intros i c Hi Hc.
    rewrite nth_error_app1 in Hc by lia.
    destruct (indexed_call _ _ _ _ Hcur Hc) as (Hlt & Hidx).
    rewrite Forall_forall in Hprog, Hzero.
    pose proof (nth_error_In _ _ Hc) as Hin.
    split; [exact Hidx|]. split; [|exact (Hzero c Hin)].
    rewrite (Hprog c Hin), Hidx. reflexivity. }
  split.
  { intros c Hin. apply in_app_or in Hin. destruct Hin as [Hin|[<-|[]]].
    - rewrite Forall_forall in Hzero. exact (Hzero c Hin).
    - rewrite Hfin. apply last_all_zero. exact Hzero. }
  rewrite Hst'. reflexivity.
Qed.

(** C4: the batch runner makes one call per scripted entry, in the order
    of the list and with [current_prompt] running through 0, ..., 10; it
    appends the user/assistant pair of each of these calls to the
    history, and nothing for the final compilation call; afterwards
    [step] is 4, [progress] is 100 and [final_response] is the text the
    final call returned. *)
Theorem batch_runs_script_in_order (st : Store World) :
  exists (new : list Call) (fin : Call) (st' : Store World),
    process_all_scripted_prompts post st = Ok tt st' /\
    calls st' = (calls st ++ new ++ [fin])%list /\
    length new = 11%nat /\
    map call_prompt new = SCRIPTED_PROMPTS /\
    map (fun c => current_prompt (call_session c)) new = seq 0 11 /\
    chained (history (conversation_state st)) (new ++ [fin]) /\
    call_prompt fin = COMPILE_PROMPT /\
    history (conversation_state st') =
      (history (conversation_state st) ++ flat_map call_turns new)%list /\
    history (conversation_state st') = history (call_session fin) /\
    length (history (conversation_state st')) =
      (length (history (conversation_state st)) + 22)%nat /\
    step (conversation_state st') = 4 /\
    progress (conversation_state st') = 100 /\
    final_response (conversation_state st') = call_reply fin.
Proof.
  destruct (process_all_scripted_prompts_spec st)
    as (new & fin & st' & Hrun & Hcalls & Hprompts & Hcur & _ & _ & Hchain
        & Hfin & _ & _ & Hst' & _).
  assert (Hlen : length new = 11%nat).
  { rewrite <- (length_map call_prompt), Hprompts. apply script_length. }
  exists new, fin, st'.
  rewrite Hst'. cbn [history step progress final_response].
  repeat split; try assumption.
  - symmetry. apply chained_last. exact Hchain.
  - rewrite length_app, length_call_turns, Hlen. reflexivity.
Qed.

(** C5: the wrapper returns in every case: with the content of the
    reply when the service replies and, when the request fails with
    [e], with the text "Error: " followed by [e]; it sends the service
    the history followed by the prompt and changes nothing of the
    session.  The batch runner appends what the wrapper returned as an
    assistant turn, an error description like any other text, goes
    through all entries and the final compilation call, whatever the
    service answers, and ends in step 4. *)
Theorem failures_become_replies :
  (forall (prompt mdl : string) (hist : option (list Turn)) (st : Store World),
      let messages :=
        (match hist with Some h => h | None => [] end ++ [user_turn prompt])%list in
      let answer := post (world st) mdl messages in
      exists (reply : option string) (st' : Store World),
        get_chatgpt_response post prompt mdl hist st = Ok reply st' /\
        (forall e : string,
            fst answer = Failed e -> reply = Some ("Error: " ++ e)) /\
        (forall content : option string,
            fst answer = Replied content -> reply = content) /\
        world st' = snd answer /\
        calls st' =
          (calls st ++ [mkCall mdl messages (fst answer) (conversation_state st)])%list /\
        conversation_state st' = conversation_state st /\
        threads st' = threads st /\ files st' = files st) /\
  (forall st : Store World,
      exists (new : list Call) (fin : Call) (st' : Store World),
        process_all_scripted_prompts post st = Ok tt st' /\
        calls st' = (calls st ++ new ++ [fin])%list /\
        served post (world st) (new ++ [fin]) (world st') /\
        map call_prompt new = SCRIPTED_PROMPTS /\
        call_prompt fin = COMPILE_PROMPT /\
        history (conversation_state st') =
          (history (conversation_state st) ++ flat_map call_turns new)%list /\
        (forall (c : Call) (e : string),
            In c (new ++ [fin]) -> call_outcome c = Failed e ->
            call_reply c = Some ("Error: " ++ e)) /\
        (forall (c : Call) (e : string),
            In c new -> call_outcome c = Failed e ->
            In (assistant_turn (Some ("Error: " ++ e)))
               (history (conversation_state st'))) /\
        step (conversation_state st') = 4 /\
        status (conversation_state st') = "Complete" /\
        is_processing (conversation_state st') = false /\
        final_response (conversation_state st') = call_reply fin).
Proof.
  split.
  - intros prompt mdl hist st messages answer.
    assert (Hrun : get_chatgpt_response post prompt mdl hist st =
                   Ok (reply_text (fst answer))
                      (mkStore (snd answer) (conversation_state st)
                               (calls st ++ [mkCall mdl messages (fst answer)
                                                    (conversation_state st)])
                               (threads st) (files st))).
    { subst answer messages. destruct hist as [h|].
      - apply get_chatgpt_response_history.
      - apply get_chatgpt_response_fresh. }
    rewrite Hrun. eexists. eexists. split; [reflexivity|].
    cbn [world calls conversation_state threads files].
    split; [intros e ->; reflexivity|].
    split; [intros content ->; reflexivity|].
    repeat split.
  - intros st.
    destruct (process_all_scripted_prompts_spec st)
      as (new & fin & st' & Hrun & Hcalls & Hprompts & _ & _ & _ & _
          & Hfin & _ & _ & Hst' & _).
    destruct (process_all_scripted_prompts_served st)
      as (run & st2 & Hrun2 & Hcalls2 & Hserved).
    rewrite Hrun in Hrun2. injection Hrun2 as <-.
    rewrite Hcalls in Hcalls2. apply app_inv_head in Hcalls2. subst run.
    exists new, fin, st'.
    rewrite Hst'. cbn [history step status is_processing final_response].
    repeat split; try assumption.
    + intros c e _ Hc. unfold call_reply. rewrite Hc. reflexivity.
    + intros c e Hin Hc. apply in_or_app. right.
      apply in_flat_map. exists c. split; [exact Hin|].
      unfold call_turns, call_reply. rewrite Hc. right. left. reflexivity.
Qed.

(** C2, as the code has it: [/start] takes the posted [model] as it is
    and takes the default, the first entry of [AVAILABLE_MODELS], only
    when the field is absent; so the stored model is a supported one
    exactly when the field is absent or holds a supported identifier. *)
Theorem start_stores_posted_model (f : form) (st : Store World) :
  exists (r : response) (st' : Store World),
    start_conversation post f st = Ok r st' /\
    (form_lookup f "model" = None ->
     model (conversation_state st') = "gpt-4o" /\
     In (model (conversation_state st')) AVAILABLE_MODELS) /\
    (forall m : string,
        form_lookup f "model" = Some m -> model (conversation_state st') = m) /\
    (In (model (conversation_state st')) AVAILABLE_MODELS <->
     form_lookup f "model" = None \/
     exists m : string, form_lookup f "model" = Some m /\ In m AVAILABLE_MODELS).
Proof.
  rewrite start_conversation_run. eexists. eexists.
  split; [reflexivity|]. cbn [conversation_state model].
  unfold form_get. destruct (form_lookup f "model") as [m|].
  - split; [discriminate|]. split; [intros ? [= <-]; reflexivity|].
    split.
    + intros Hin. right. exists m. split; [reflexivity|exact Hin].
    + intros [H|(m' & [= <-] & Hin)]; [discriminate|exact Hin].
  - split; [intros _; split; [reflexivity|left; reflexivity]|].
    split; [discriminate|].
    split; [intros _; left; reflexivity|intros _; left; reflexivity].
Qed.


(** C6: in a step other than 1 and 2, [/next] answers with the error
    "Invalid step", whatever the input, and leaves the store, hence
    every field of [conversation_state], as it was. *)
Theorem next_step_invalid_step (f : form) (st : Store World) :
  step (conversation_state st) <> 1 ->
  step (conversation_state st) <> 2 ->
  exists st' : Store World,
    next_step post f st = Ok (Jsonify 200 [("error", JStr "Invalid step")]) st' /\
    st' = st /\
    history (conversation_state st') = history (conversation_state st) /\
    step (conversation_state st') = step (conversation_state st) /\
    model (conversation_state st') = model (conversation_state st) /\
    current_prompt (conversation_state st') = current_prompt (conversation_state st) /\
    progress (conversation_state st') = progress (conversation_state st) /\
    status (conversation_state st') = status (conversation_state st) /\
    is_processing (conversation_state st') = is_processing (conversation_state st) /\
    final_response (conversation_state st') = final_response (conversation_state st).
Proof.
  intros H1 H2. exists st.
  split; [apply next_step_elsewhere; assumption|].
  repeat split.
Qed.

(** C7, as the code has it: [final_response] is set exactly in step 4
    in the initial [conversation_state], and [/start], [/next],
    [/progress], [/get_final_response] and [/download] keep it so.  The
    batch runner returns in step 4 with [final_response] what its final
    call returned, unchecked: it leaves [final_response] set exactly in
    step 4 unless the service replied to the final call with a [null]
    content. *)
Theorem document_invariant_preserved :
  document_invariant conversation_state0 /\
  (forall (f : form) (st : Store World),
      document_invariant (conversation_state st) ->
      exists (r : response) (st' : Store World),
        start_conversation post f st = Ok r st' /\
        document_invariant (conversation_state st')) /\
  (forall (f : form) (st : Store World),
      document_invariant (conversation_state st) ->
      exists (r : response) (st' : Store World),
        next_step post f st = Ok r st' /\
        document_invariant (conversation_state st')) /\
  (forall st : Store World,
      exists (new : list Call) (fin : Call) (st' : Store World),
        process_all_scripted_prompts post st = Ok tt st' /\
        calls st' = (calls st ++ new ++ [fin])%list /\
        call_prompt fin = COMPILE_PROMPT /\
        step (conversation_state st') = 4 /\
        final_response (conversation_state st') = call_reply fin /\
        (document_invariant (conversation_state st') <->
         call_outcome fin <> Replied None)) /\
  (forall st : Store World,
      document_invariant (conversation_state st) ->
      exists (r : response) (st' : Store World),
        get_progress st = Ok r st' /\
        document_invariant (conversation_state st')) /\
  (forall st : Store World,
      document_invariant (conversation_state st) ->
      exists (r : response) (st' : Store World),
        get_final_response st = Ok r st' /\
        document_invariant (conversation_state st')) /\
  (forall st : Store World,
      document_invariant (conversation_state st) ->
      document_invariant (conversation_state (final_store (download st)))).
Proof.
  split.
  { unfold document_invariant. simpl. split; [congruence|discriminate]. }
  split.
  { intros f st _. rewrite start_conversation_run. eexists. eexists.
    split; [reflexivity|]. unfold document_invariant. simpl.
    split; [congruence|discriminate]. }
  split.
  { intros f st Hinv.
    destruct (Z.eq_dec (step (conversation_state st)) 1) as [H1|H1].
    - rewrite (next_step_niche f st H1). eexists. eexists.
      split; [reflexivity|]. unfold document_invariant in *.
      cbn [conversation_state with_step with_history final_response step].
      split; [|discriminate].
      intros Hdoc. apply Hinv in Hdoc. rewrite H1 in Hdoc. discriminate.
    - destruct (Z.eq_dec (step (conversation_state st)) 2) as [H2|H2].
      + rewrite (next_step_offer f st H2). cbv zeta. eexists. eexists.
        split; [reflexivity|]. cbn [conversation_state].
        destruct (is_processing (conversation_state st)); [exact Hinv|].
        unfold document_invariant in *.
        cbn [thread_started with_progress with_status with_current_prompt
             with_step with_is_processing with_history final_response step].
        split; [|discriminate].
        intros Hdoc. apply Hinv in Hdoc. rewrite H2 in Hdoc. discriminate.
      + rewrite (next_step_elsewhere f st H1 H2). eexists. eexists.
        split; [reflexivity|]. exact Hinv. }
  split.
  { intros st.
    destruct (process_all_scripted_prompts_spec st)
      as (new & fin & st' & Hrun & Hcalls & _ & _ & _ & _ & _
          & Hfin & _ & _ & Hst' & _).
    exists new, fin, st'.
    split; [exact Hrun|]. split; [exact Hcalls|]. split; [exact Hfin|].
    rewrite Hst'. unfold document_invariant. cbn [step final_response].
    split; [reflexivity|]. split; [reflexivity|].
    unfold call_reply. destruct (call_outcome fin) as [[text|]|e];
      cbn [reply_text].
    - split; [intros _; discriminate|].
      intros _. split; [intros _; reflexivity|intros _; discriminate].
    - split.
      + intros H _. apply (proj2 H eq_refl). reflexivity.
      + intros H. contradiction H. reflexivity.
    - split; [intros _; discriminate|].
      intros _. split; [intros _; reflexivity|intros _; discriminate]. }
  split.
  { intros st Hinv. destruct (get_progress_store st) as (r & Hr).
    exists r, st. split; assumption. }
  split.
  { intros st Hinv. rewrite get_final_response_run.
    destruct (step (conversation_state st) =? 4);
      eexists; eexists; (split; [reflexivity|exact Hinv]). }
  intros st Hinv. rewrite download_run.
  destruct (final_response (conversation_state st)) as [[|a rest]|];
    try exact Hinv.
  cbv zeta.
  match goal with
  | |- context [file_lookup ?fs ?p] => destruct (file_lookup fs p)
  end; exact Hinv.
Qed.

(** C8: for a supported model identifier [m], [/start] replaces the
    session by the defaults with model [m], makes one call, with model
    [m] and the opening prompt as the only message, and returns with
    [step] 1 and a history of exactly two turns, the opening prompt and
    the reply. *)
Theorem start_conversation_opens_session (f : form) (m : string) (st : Store World) :
  In m AVAILABLE_MODELS ->
  form_lookup f "model" = Some m ->
  exists (c : Call) (r : response) (st' : Store World),
    start_conversation post f st = Ok r st' /\
    calls st' = (calls st ++ [c])%list /\
    call_model c = m /\
    call_messages c = [user_turn INITIAL_PROMPT] /\
    call_session c = mkSession [] 0 m None 0 0 "Starting..." false /\
    conversation_state st' =
      mkSession [user_turn INITIAL_PROMPT; assistant_turn (call_reply c)]
                1 m None 0 0 "Starting..." false /\
    step (conversation_state st') = 1 /\
    length (history (conversation_state st')) = 2%nat.
Proof.
  intros _ Hm. rewrite start_conversation_run. cbv zeta.
  unfold form_get. rewrite Hm.
  match goal with
  | |- context [mkCall ?a ?b ?o ?d] => exists (mkCall a b o d)
  end.
  eexists. eexists. split; [reflexivity|].
  cbn [calls conversation_state call_model call_messages call_session
       step history length].
  repeat split.
Qed.

(** C9: [/next] does not read the posted [step]: for two forms that
    agree on every other field, it returns the same response and the
    same store. *)
Theorem next_step_ignores_posted_step (f1 f2 : form) (st : Store World) :
  (forall key : string, key <> "step" -> form_lookup f1 key = form_lookup f2 key) ->
  next_step post f1 st = next_step post f2 st.
Proof.
  intros Hsame. unfold next_step, form_get.
  rewrite (Hsame "input"); [reflexivity|discriminate].
Qed.


(** * Further properties *)

(** ** What a poll sees *)

(** X1: during the call for entry [i] of the script the status is
    [PROMPT_NAMES[i]] and [current_prompt] is [i]; during the final
    call the status is "Finalizing document" with [current_prompt]
    still 10, the index of the last entry. *)
Theorem status_follows_script (st : Store World) :
  exists (new : list Call) (fin : Call) (st' : Store World),
    process_all_scripted_prompts post st = Ok tt st' /\
    calls st' = (calls st ++ new ++ [fin])%list /\
    length new = length PROMPT_NAMES /\
    (forall (i : nat) (c : Call),
        nth_error new i = Some c ->
        current_prompt (call_session c) = i /\
        nth_error PROMPT_NAMES i = Some (status (call_session c)) /\
        nth_error SCRIPTED_PROMPTS i = Some (call_prompt c)) /\
    status (call_session fin) = "Finalizing document" /\
    current_prompt (call_session fin) = 10%nat.
Proof.
  destruct (process_all_scripted_prompts_report st)
    as (new & fin & st' & Hrun & Hcalls & Hprompts & Hcur & Hlabels & _ & _ & _
        & Hfin & _).
  exists new, fin, st'.
  split; [exact Hrun|]. split; [exact Hcalls|].
  split.
  { rewrite <- (length_map call_prompt), Hprompts. reflexivity. }
  split.
  { intros i c Hc.
    destruct (indexed_call _ _ _ _ Hcur Hc) as (_ & Hidx).
    rewrite Forall_forall in Hlabels.
    pose proof (Hlabels c (nth_error_In _ _ Hc)) as Hlabel.
    rewrite Hidx in Hlabel.
    split; [exact Hidx|]. split; [exact Hlabel|].
    rewrite <- Hprompts. apply map_nth_error. exact Hc. }
  rewrite Hfin. split; reflexivity.
Qed.

(** X2: a poll of [/progress] after the runner has returned reads step
    4, progress 100, status "Complete", [current_prompt] 10 of 11,
    [complete] true and [is_processing] false, and changes nothing. *)
Theorem progress_after_run (st : Store World) :
  exists st' : Store World,
    process_all_scripted_prompts post st = Ok tt st' /\
    get_progress st' =
      Ok (Jsonify 200
            [("step", JInt 4);
             ("progress", JInt 100);
             ("status", JStr "Complete");
             ("current_prompt", JInt 10);
             ("total_prompts", JInt 11);
             ("complete", JBool true);
             ("is_processing", JBool false)]) st'.
Proof.
  destruct (process_all_scripted_prompts_report st)
    as (new & fin & st' & Hrun & _ & _ & _ & _ & _ & _ & _ & _ & Hst' & _).
  exists st'. split; [exact Hrun|].
  unfold get_progress, bind, get_state, ret. rewrite Hst'. reflexivity.
Qed.

(** ** The intake steps *)

(** X15: the prompts of the two intake steps hold the posted input,
    stripped, as it is: twice in the niche prompt, once in the offer
    prompt, between the fixed words of the templates. *)
Theorem prompts_embed_input (f : form) :
  let text := strip (form_get f "input" "") in
  niche_prompt f =
    "Great
1. My target niche: This time, I'm aiming to reach out to **" ++ text ++
    "**
2. My previous thoughts and understanding of this niche: **" ++ text ++
    "**
I can provide you with the context about my company if this is clear. 
Sounds good?" /\
  offer_prompt f =
    "Now, some context about my company and my offer to this niche, **" ++ text ++
    "**".
Proof.
  intros text. split; reflexivity.
Qed.

(** X3: in step 1, [/next] makes one call, with the session's model and
    the history followed by the niche prompt, appends the prompt and
    the reply to the history, moves to step 2 and returns the reply;
    it starts no thread and writes no file. *)
Theorem niche_moves_to_offer (f : form) (st : Store World) :
  step (conversation_state st) = 1 ->
  exists (c : Call) (st' : Store World),
    next_step post f st =
      Ok (Jsonify 200
            [("response", json_of_text (call_reply c));
             ("step", JInt 2);
             ("user_prompt",
              JStr "Now please provide context about your company and offer:");
             ("status", JStr (status (conversation_state st)))]) st' /\
    calls st' = (calls st ++ [c])%list /\
    call_model c = model (conversation_state st) /\
    call_messages c =
      (history (conversation_state st) ++ [user_turn (niche_prompt f)])%list /\
    call_session c = conversation_state st /\
    conversation_state st' =
      with_step 2
        (with_history (history (conversation_state st) ++
                       [user_turn (niche_prompt f); assistant_turn (call_reply c)])
                      (conversation_state st)) /\
    threads st' = threads st /\ files st' = files st.
Proof.
  intros Hstep. rewrite (next_step_niche f st Hstep). cbv zeta.
  match goal with
  | |- context [mkCall ?a ?b ?o ?d] => exists (mkCall a b o d)
  end.
  eexists. split; [reflexivity|].
  cbn [calls conversation_state threads files call_model call_messages
       call_session].
  repeat split.
Qed.

(** X4: a session starts one batch thread.  Once the [/next] of step 2
    has started it, a further [/next] is answered with "Invalid step"
    and changes nothing: right after the first, after any number [k] of
    entries of the run, and after the run; the run makes its 12 calls
    once. *)
Theorem second_offer_is_refused (f1 f2 : form) (k : nat) (st : Store World) :
  step (conversation_state st) = 2 ->
  is_processing (conversation_state st) = false ->
  (k <= length SCRIPTED_PROMPTS)%nat ->
  exists (r : response) (st1 stk st2 : Store World),
    next_step post f1 st = Ok r st1 /\
    threads st1 = S (threads st) /\
    next_step post f2 st1 =
      Ok (Jsonify 200 [("error", JStr "Invalid step")]) st1 /\
    batch_until post k st1 = Ok tt stk /\
    next_step post f2 stk =
      Ok (Jsonify 200 [("error", JStr "Invalid step")]) stk /\
    process_all_scripted_prompts post st1 = Ok tt st2 /\
    next_step post f2 st2 =
      Ok (Jsonify 200 [("error", JStr "Invalid step")]) st2 /\
    threads stk = S (threads st) /\
    threads st2 = S (threads st) /\
    length (calls st2) = (length (calls st) + 13)%nat.
Proof.
  intros Hstep Hidle Hk.
  rewrite (next_step_offer f1 st Hstep). cbv zeta. rewrite Hidle.
  match goal with
  | |- context [Ok ?r ?x = Ok _ _] => set (st1 := x); exists r, st1
  end.
  assert (H3 : step (conversation_state st1) = 3) by reflexivity.
  destruct (batch_until_running k st1) as (stk & Hrunk & Hstepk & _ & Hthrk & _).
  destruct (process_all_scripted_prompts_spec st1)
    as (new & fin & st2 & Hrun & Hcalls & Hprompts & _ & _ & _ & _ & _ & _ & _
        & Hst2 & Hthr & _).
  assert (Hlen : length new = 11%nat).
  { rewrite <- (length_map call_prompt), Hprompts. reflexivity. }
  assert (Hstep2 : step (conversation_state st2) = 4) by (rewrite Hst2; reflexivity).
  exists stk, st2.
  split; [reflexivity|]. split; [reflexivity|].
  split; [apply next_step_elsewhere; rewrite H3; discriminate|].
  split; [exact Hrunk|].
  split; [apply next_step_elsewhere; rewrite Hstepk; discriminate|].
  split; [exact Hrun|].
  split; [apply next_step_elsewhere; rewrite Hstep2; discriminate|].
  split; [rewrite Hthrk; reflexivity|].
  split; [rewrite Hthr; reflexivity|].
  rewrite Hcalls. subst st1. cbn [calls].
  rewrite !length_app, Hlen. cbn [length]. lia.
Qed.

(** ** A new session while the runner runs *)

(** X5: a [/start] handled while the runner sleeps after entry [k - 1]
    does not stop the runner: it goes on with entry [k] in the new
    session, which has skipped both intake steps, and leaves it in step
    4 with a document compiled from the opening pair and the pairs of
    the entries from [k] on.  Without the [/start] the two parts make up
    the runner. *)
Theorem start_does_not_stop_runner (k : nat) (f : form) (st : Store World) :
  (k <= length SCRIPTED_PROMPTS)%nat ->
  process_all_scripted_prompts post st =
    bind (batch_until post k) (fun _ => batch_from post k) st /\
  exists (st1 : Store World) (r : response) (st2 : Store World)
         (new : list Call) (fin : Call) (st3 : Store World),
    batch_until post k st = Ok tt st1 /\
    start_conversation post f st1 = Ok r st2 /\
    step (conversation_state st2) = 1 /\
    length (history (conversation_state st2)) = 2%nat /\
    batch_from post k st2 = Ok tt st3 /\
    calls st3 = (calls st2 ++ new ++ [fin])%list /\
    map call_prompt new = skipn k SCRIPTED_PROMPTS /\
    chained (history (conversation_state st2)) (new ++ [fin]) /\
    conversation_state st3 =
      mkSession (history (conversation_state st2) ++ flat_map call_turns new)
                4 (form_get f "model" "gpt-4o") (call_reply fin)
                (last (map (fun c => current_prompt (call_session c)) new) 0%nat)
                100 "Complete" false /\
    length (history (conversation_state st3)) = (2 + 2 * (11 - k))%nat.
Proof.
  intros Hk. split; [apply process_all_scripted_prompts_parts; exact Hk|].
  destruct (batch_until_run k st) as (st1 & Hrun1).
  exists st1.
  rewrite start_conversation_run. cbv zeta.
  match goal with
  | |- context [Ok ?r ?x = Ok _ _] => set (st2 := x); exists r, st2
  end.
  destruct (batch_from_run k st2 Hk)
    as (new & fin & st3 & Hrun3 & Hcalls & Hprompts & _ & _ & _ & Hchain & _ & _
        & _ & Hst3 & _).
  exists new, fin, st3.
  split; [exact Hrun1|]. split; [reflexivity|]. split; [reflexivity|].
  split; [reflexivity|]. split; [exact Hrun3|]. split; [exact Hcalls|].
  split; [exact Hprompts|]. split; [exact Hchain|].
  split; [exact Hst3|].
  rewrite Hst3. cbn [history]. rewrite length_app, length_call_turns.
  rewrite <- (length_map call_prompt new), Hprompts, length_skipn.
  subst st2. cbn [conversation_state history length].
  change (length SCRIPTED_PROMPTS) with 11%nat. reflexivity.
Qed.

(** ** A session from its start to its document *)

(** X6: [/start], the niche, the offer and the batch run, from any
    store: 15 calls, all with the model posted to [/start], each
    carrying every turn made so far; one thread started; at the end
    step 4, a history of 28 turns and, as the document that
    [/get_final_response] returns, the reply to the last call. *)
Theorem session_from_start_to_document (f0 f1 f2 : form) (st : Store World) :
  exists (r0 r1 r2 : response) (st0 st1 st2 st3 : Store World)
         (c0 c1 c2 : Call) (new : list Call) (fin : Call),
    start_conversation post f0 st = Ok r0 st0 /\
    next_step post f1 st0 = Ok r1 st1 /\
    next_step post f2 st1 = Ok r2 st2 /\
    process_all_scripted_prompts post st2 = Ok tt st3 /\
    threads st3 = S (threads st) /\
    calls st3 = (calls st ++ c0 :: c1 :: c2 :: new ++ [fin])%list /\
    map call_prompt (c0 :: c1 :: c2 :: new ++ [fin]) =
      (INITIAL_PROMPT :: niche_prompt f1 :: offer_prompt f2
         :: SCRIPTED_PROMPTS ++ [COMPILE_PROMPT])%list /\
    Forall (fun c => call_model c = form_get f0 "model" "gpt-4o")
           (c0 :: c1 :: c2 :: new ++ [fin]) /\
    chained [] (c0 :: c1 :: c2 :: new ++ [fin]) /\
    history (conversation_state st3) = flat_map call_turns (c0 :: c1 :: c2 :: new) /\
    length (history (conversation_state st3)) = 28%nat /\
    step (conversation_state st3) = 4 /\
    get_final_response st3 =
      Ok (Jsonify 200 [("response", json_of_text (call_reply fin))]) st3.
Proof.
  rewrite start_conversation_run. cbv zeta.
  match goal with
  | |- context [Ok ?r (mkStore ?w ?s (_ ++ [?c]) ?t ?fs) = Ok _ _] =>
      set (c0 := c); set (st0 := mkStore w s (calls st ++ [c0]) t fs);
      set (r0 := r)
  end.
  assert (H1 : step (conversation_state st0) = 1) by reflexivity.
  pose proof (next_step_niche f1 st0 H1) as Hn. cbv zeta in Hn.
  match type of Hn with
  | _ = Ok ?r (mkStore ?w ?s (_ ++ [?c]) ?t ?fs) =>
      set (c1 := c) in Hn; set (st1 := mkStore w s (calls st0 ++ [c1]) t fs) in Hn;
      set (r1 := r) in Hn
  end.
  assert (H2 : step (conversation_state st1) = 2) by reflexivity.
  pose proof (next_step_offer f2 st1 H2) as Ho. cbv zeta in Ho.
  change (is_processing (conversation_state st1)) with false in Ho. cbv iota in Ho.
  match type of Ho with
  | _ = Ok ?r (mkStore ?w ?s (_ ++ [?c]) ?t ?fs) =>
      set (c2 := c) in Ho; set (st2 := mkStore w s (calls st1 ++ [c2]) t fs) in Ho;
      set (r2 := r) in Ho
  end.
  destruct (process_all_scripted_prompts_report st2)
    as (new & fin & st3 & Hrun & Hcalls & Hprompts & _ & _ & Hmodels & Hchain
        & Hfin & _ & Hst3 & Hthr & _).
  assert (Hp0 : call_prompt c0 = INITIAL_PROMPT) by reflexivity.
  assert (Hp1 : call_prompt c1 = niche_prompt f1) by apply call_prompt_appended.
  assert (Hp2 : call_prompt c2 = offer_prompt f2) by apply call_prompt_appended.
  assert (Hlen : length new = 11%nat).
  { rewrite <- (length_map call_prompt), Hprompts. reflexivity. }
  exists r0, r1, r2, st0, st1, st2, st3, c0, c1, c2, new, fin.
  split; [reflexivity|]. split; [exact Hn|]. split; [exact Ho|].
  split; [exact Hrun|].
  split; [rewrite Hthr; reflexivity|].
  split.
  { rewrite Hcalls. subst st2 st1 st0. cbn [calls].
    rewrite <- !app_assoc. reflexivity. }
  split.
  { cbn [map]. rewrite map_app, Hp0, Hp1, Hp2, Hprompts. cbn [map].
    rewrite Hfin. reflexivity. }
  split.
  { repeat (constructor; [reflexivity|]). exact Hmodels. }
  assert (Hh2 : history (conversation_state st2) =
                flat_map call_turns [c0; c1; c2]).
  { cbn [flat_map app]. unfold call_turns. rewrite Hp0, Hp1, Hp2. reflexivity. }
  split.
  { cbn [chained]. rewrite Hp0, Hp1, Hp2.
    split; [reflexivity|]. split; [reflexivity|].
    split; [reflexivity|]. split; [reflexivity|].
    split; [reflexivity|]. split; [reflexivity|].
    rewrite Hh2 in Hchain. exact Hchain. }
  split.
  { rewrite Hst3. cbn [history]. rewrite Hh2.
    change (c0 :: c1 :: c2 :: new) with ([c0; c1; c2] ++ new)%list.
    rewrite flat_map_app. reflexivity. }
  split.
  { rewrite Hst3. cbn [history]. rewrite Hh2, length_app, !length_call_turns, Hlen.
    reflexivity. }
  split; [rewrite Hst3; reflexivity|].
  rewrite get_final_response_run, Hst3. reflexivity.
Qed.

(** ** The document on disk, in the directory of the application *)

Lemma written_twice (text : string) (d : Disk) :
  written text (written text d) = written text d.
Proof.
  unfold written. cbn [working_directory root_path contents remove_file].
  rewrite path_eqb_refl, remove_file_twice. reflexivity.
Qed.

(** X7: in a process that runs in the directory of the application,
    [/download] with a non-empty document serves it under the name
    marketing_strategy.txt; afterwards the file of that name in that
    directory holds exactly the document, whatever it held before,
    every other file is as it was, the session and the record of calls
    are untouched, and a second download gives the same answer and
    leaves the store as the first left it. *)
Theorem download_writes_document (text : string) (st : Store World) :
  working_directory (files st) = root_path (files st) ->
  final_response (conversation_state st) = Some text ->
  text <> "" ->
  exists st' : Store World,
    download st = Ok (Attachment "marketing_strategy.txt" text) st' /\
    file_lookup (contents (files st'))
                (working_directory (files st), "marketing_strategy.txt") =
      Some text /\
    (forall p : string * string,
        p <> (working_directory (files st), "marketing_strategy.txt") ->
        file_lookup (contents (files st')) p =
        file_lookup (contents (files st)) p) /\
    working_directory (files st') = working_directory (files st) /\
    root_path (files st') = root_path (files st) /\
    conversation_state st' = conversation_state st /\
    calls st' = calls st /\
    threads st' = threads st /\
    download st' = Ok (Attachment "marketing_strategy.txt" text) st'.
Proof.
  intros Hroot Hdoc Hne. change "marketing_strategy.txt" with DOCUMENT_NAME.
  rewrite (download_at_root text st Hroot Hdoc Hne).
  eexists. split; [reflexivity|].
  cbn [files conversation_state calls threads].
  split; [rewrite file_lookup_written, path_eqb_refl; reflexivity|].
  split.
  { intros p Hp. rewrite file_lookup_written.
    destruct (path_eqb (working_directory (files st), DOCUMENT_NAME) p) eqn:Hq;
      [|reflexivity].
    apply path_eqb_eq in Hq. contradiction Hp. symmetry. exact Hq. }
  split; [reflexivity|]. split; [reflexivity|].
  split; [reflexivity|]. split; [reflexivity|]. split; [reflexivity|].
  rewrite download_at_root with (text := text);
    [|exact Hroot|exact Hdoc|exact Hne].
  cbn [world conversation_state calls threads files].
  rewrite written_twice. reflexivity.
Qed.

(** X8: [/start] discards the document of the session it replaces:
    right after it [/download] and [/get_final_response] both answer
    that the document is not ready, whatever the store was before; the
    file of an earlier download stays on disk. *)
Theorem start_discards_document (f : form) (st : Store World) :
  exists (r : response) (st' : Store World),
    start_conversation post f st = Ok r st' /\
    final_response (conversation_state st') = None /\
    download st' = Ok NOT_READY st' /\
    get_final_response st' = Ok NOT_READY st' /\
    files st' = files st /\
    threads st' = threads st.
Proof.
  rewrite start_conversation_run. cbv zeta.
  eexists. eexists. split; [reflexivity|].
  repeat split.
Qed.

(** ** What the session keeps *)

(** X9: [/next], in whatever step, and the batch runner keep the model
    of the session, make every call with it, and only append to the
    history. *)
Theorem model_kept_history_grows (st : Store World) :
  (forall f : form,
      exists (r : response) (st' : Store World) (new : list Call)
             (added : list Turn),
        next_step post f st = Ok r st' /\
        calls st' = (calls st ++ new)%list /\
        Forall (fun c => call_model c = model (conversation_state st)) new /\
        model (conversation_state st') = model (conversation_state st) /\
        history (conversation_state st') =
          (history (conversation_state st) ++ added)%list) /\
  (exists (st' : Store World) (new : list Call) (added : list Turn),
      process_all_scripted_prompts post st = Ok tt st' /\
      calls st' = (calls st ++ new)%list /\
      Forall (fun c => call_model c = model (conversation_state st)) new /\
      model (conversation_state st') = model (conversation_state st) /\
      history (conversation_state st') =
        (history (conversation_state st) ++ added)%list).
Proof.
  split.
  - intros f.
    destruct (Z.eq_dec (step (conversation_state st)) 1) as [H1|H1];
      [|destruct (Z.eq_dec (step (conversation_state st)) 2) as [H2|H2]].
    + rewrite (next_step_niche f st H1). cbv zeta.
      eexists. eexists. eexists. eexists.
      split; [reflexivity|]. cbn [calls conversation_state].
      split; [reflexivity|].
      split; [constructor; [reflexivity|constructor]|].
      split; reflexivity.
    + rewrite (next_step_offer f st H2). cbv zeta.
      eexists. eexists. eexists.
      exists [user_turn (offer_prompt f);
              assistant_turn
                (reply_text
                   (fst (post (world st) (model (conversation_state st))
                              (history (conversation_state st) ++
                               [user_turn (offer_prompt f)]))))].
      split; [reflexivity|]. cbn [calls conversation_state].
      split; [reflexivity|].
      split; [constructor; [reflexivity|constructor]|].
      destruct (is_processing (conversation_state st)); split; reflexivity.
    + rewrite (next_step_elsewhere f st H1 H2).
      exists (Jsonify 200 [("error", JStr "Invalid step")]), st, [], [].
      rewrite !app_nil_r. repeat split. constructor.
  - destruct (process_all_scripted_prompts_report st)
      as (new & fin & st' & Hrun & Hcalls & _ & _ & _ & Hmodels & _ & _ & _
          & Hst' & _).
    exists st', (new ++ [fin])%list, (flat_map call_turns new).
    rewrite Hst'. cbn [model history].
    repeat split; assumption.
Qed.

(** ** The requests the chat API is given *)

(** X13: the history is kept a sequence of user/assistant pairs:
    [/start] leaves such a history, [/next] and the batch runner keep
    it such, and every request they send is such a history followed by
    one user turn. *)
Theorem history_alternates (st : Store World) :
  (forall f : form,
      exists (r : response) (st' : Store World) (c : Call),
        start_conversation post f st = Ok r st' /\
        calls st' = (calls st ++ [c])%list /\
        well_formed_request (call_messages c) /\
        alternating (history (conversation_state st'))) /\
  (alternating (history (conversation_state st)) ->
   (forall f : form,
       exists (r : response) (st' : Store World) (new : list Call),
         next_step post f st = Ok r st' /\
         calls st' = (calls st ++ new)%list /\
         Forall (fun c => well_formed_request (call_messages c)) new /\
         alternating (history (conversation_state st'))) /\
   (exists (st' : Store World) (new : list Call),
       process_all_scripted_prompts post st = Ok tt st' /\
       calls st' = (calls st ++ new)%list /\
       Forall (fun c => well_formed_request (call_messages c)) new /\
       alternating (history (conversation_state st')))).
Proof.
  split.
  { intros f. rewrite start_conversation_run. cbv zeta.
    eexists. eexists. eexists. split; [reflexivity|].
    cbn [calls conversation_state call_messages history].
    split; [reflexivity|].
    split; [exists [], INITIAL_PROMPT; split; [reflexivity|exact I]|].
    cbn. repeat split. }
  intros Halt. split.
  - intros f.
    assert (Hpair : forall prompt reply,
               alternating (history (conversation_state st) ++
                            [user_turn prompt; assistant_turn reply])).
    { intros prompt reply. apply alternating_app; [|exact Halt].
      cbn. repeat split. }
    destruct (Z.eq_dec (step (conversation_state st)) 1) as [H1|H1];
      [|destruct (Z.eq_dec (step (conversation_state st)) 2) as [H2|H2]].
    + rewrite (next_step_niche f st H1). cbv zeta.
      eexists. eexists. eexists. split; [reflexivity|].
      cbn [calls conversation_state with_step with_history history].
      split; [reflexivity|].
      split; [|apply Hpair].
      constructor; [|constructor]. cbn [call_messages].
      eexists. eexists. split; [reflexivity|exact Halt].
    + rewrite (next_step_offer f st H2). cbv zeta.
      eexists. eexists. eexists. split; [reflexivity|].
      cbn [calls conversation_state].
      split; [reflexivity|].
      split; [|destruct (is_processing (conversation_state st)); apply Hpair].
      constructor; [|constructor]. cbn [call_messages].
      eexists. eexists. split; [reflexivity|exact Halt].
    + rewrite (next_step_elsewhere f st H1 H2).
      exists (Jsonify 200 [("error", JStr "Invalid step")]), st, [].
      rewrite app_nil_r. repeat split; [constructor|exact Halt].
  - destruct (process_all_scripted_prompts_report st)
      as (new & fin & st' & Hrun & Hcalls & _ & _ & _ & _ & Hchain & _ & _
          & Hst' & _).
    destruct (chained_well_formed _ _ Halt Hchain) as (Hall & _).
    assert (Hnew : chained (history (conversation_state st)) new).
    { clear - Hchain. revert Hchain.
      generalize (history (conversation_state st)).
      induction new as [|c new IH]; intros h H; [exact I|].
      destruct H as (H1 & H2 & H3). repeat split; [exact H1|exact H2|].
      apply IH. exact H3. }
    destruct (chained_well_formed _ _ Halt Hnew) as (_ & Hhist).
    exists st', (new ++ [fin])%list.
    split; [exact Hrun|]. split; [exact Hcalls|]. split; [exact Hall|].
    rewrite Hst'. exact Hhist.
Qed.

(** ** Empty input *)

(** X14: [/next] does not refuse an empty input.  When the field
    [input] is missing, or holds a text of which [strip] leaves
    nothing, the prompts are the templates around the empty text; in
    step 1 the call is made with that prompt and the session moves to
    step 2, in step 2 the call is made with that prompt and the
    acknowledgement is returned. *)
Theorem blank_input_is_accepted (f : form) (st : Store World) :
  (forall v : string, form_lookup f "input" = Some v -> strip v = "") ->
  niche_prompt f =
    "Great
1. My target niche: This time, I'm aiming to reach out to ****
2. My previous thoughts and understanding of this niche: ****
I can provide you with the context about my company if this is clear. 
Sounds good?" /\
  offer_prompt f =
    "Now, some context about my company and my offer to this niche, ****" /\
  (step (conversation_state st) = 1 ->
   exists (c : Call) (r : response) (st' : Store World),
     next_step post f st = Ok r st' /\
     calls st' = (calls st ++ [c])%list /\
     call_prompt c = niche_prompt f /\
     step (conversation_state st') = 2) /\
  (step (conversation_state st) = 2 ->
   exists (c : Call) (st' : Store World),
     next_step post f st =
       Ok (Jsonify 200
             [("response", JStr ACK_MESSAGE);
              ("step", JInt 3);
              ("status", JStr "Starting analysis...");
              ("progress", JInt 0);
              ("auto_proceed", JBool false)]) st' /\
     calls st' = (calls st ++ [c])%list /\
     call_prompt c = offer_prompt f).
Proof.
  intros Hblank.
  assert (Hstrip : strip (form_get f "input" "") = "").
  { unfold form_get. destruct (form_lookup f "input") as [v|].
    - apply Hblank. reflexivity.
    - reflexivity. }
  split; [unfold niche_prompt; rewrite Hstrip; reflexivity|].
  split; [unfold offer_prompt; rewrite Hstrip; reflexivity|].
  split.
  - intros Hstep. rewrite (next_step_niche f st Hstep). cbv zeta.
    match goal with
    | |- context [mkCall ?a ?b ?o ?d] => exists (mkCall a b o d)
    end.
    eexists. eexists. split; [reflexivity|].
    cbn [calls conversation_state].
    split; [reflexivity|].
    split; [apply call_prompt_appended|reflexivity].
  - intros Hstep. rewrite (next_step_offer f st Hstep). cbv zeta.
    match goal with
    | |- context [mkCall ?a ?b ?o ?d] => exists (mkCall a b o d)
    end.
    eexists. split; [reflexivity|].
    cbn [calls].
    split; [reflexivity|apply call_prompt_appended].
Qed.

End Properties.

(** * The program, run *)

(** ** The text helpers *)

(** [strip] takes ASCII and other Unicode whitespace from both ends:
    here a no-break space, U+00A0, and an em space, U+2003, in their
    UTF-8 encodings; a zero width space, U+200B, is no whitespace. *)
Example strip_unicode_whitespace :
  let nbsp := String (ascii_of_nat 194) (String (ascii_of_nat 160) "") in
  let emsp := String (ascii_of_nat 226) (String (ascii_of_nat 128)
                (String (ascii_of_nat 131) "")) in
  let zwsp := String (ascii_of_nat 226) (String (ascii_of_nat 128)
                (String (ascii_of_nat 139) "")) in
  strip ("  dog walkers " ++ nbsp) = "dog walkers" /\
  strip (emsp ++ "a" ++ nbsp ++ "b" ++ emsp ++ " ") = "a" ++ nbsp ++ "b" /\
  strip (nbsp ++ " " ++ emsp) = "" /\
  strip (zwsp ++ "a") = zwsp ++ "a".
Proof. vm_compute. repeat split. Qed.

(** [format] fills the field 0, turns doubled braces into single ones,
    leaves the braces of the argument alone and has no result where
    [str.format] raises. *)
Example format_fields :
  format "to **{0}**" "x{0}y" = Some "to **x{0}y**" /\
  format "a{{b}}c{0}" "x" = Some "a{b}cx" /\
  format "{0}{1}" "x" = None /\
  format "{}" "x" = None /\
  format "a}b" "x" = None /\
  format "a{b" "x" = None.
Proof. vm_compute. repeat split. Qed.

(** ** The scenario *)

Example scenario_steps :
  map (fun st => step (conversation_state st))
      [start_store; niche_store; offer_store; launched_store; complete_store]
  = [0; 1; 2; 3; 4].
Proof. vm_compute. reflexivity. Qed.

Example scenario_history_lengths :
  map (fun st => length (history (conversation_state st)))
      [start_store; niche_store; offer_store; launched_store; complete_store]
  = [0; 2; 4; 6; 28]%nat.
Proof. vm_compute. reflexivity. Qed.

Example scenario_threads :
  map (fun st => (threads st, is_processing (conversation_state st),
                  status (conversation_state st)))
      [offer_store; launched_store; complete_store]
  = [(0%nat, false, "Starting...");
     (1%nat, true, "Collecting Demographic Data");
     (1%nat, false, "Complete")].
Proof. vm_compute. reflexivity. Qed.

Example scenario_document :
  final_response (conversation_state complete_store) = Some "O" /\
  get_final_response complete_store =
    Ok (Jsonify 200 [("response", JStr "O")]) complete_store.
Proof. split; vm_compute; reflexivity. Qed.

Example failing_run_completes :
  let st := store_after (process_all_scripted_prompts failing_service launched_store) in
  step (conversation_state st) = 4 /\
  final_response (conversation_state st) = Some "Error: 503 Server Error" /\
  last (history (conversation_state st)) (user_turn "") =
    assistant_turn (Some "Error: 503 Server Error").
Proof. vm_compute. repeat split. Qed.

Example null_run_completes :
  step (conversation_state null_complete_store) = 4 /\
  final_response (conversation_state null_complete_store) = None /\
  get_final_response null_complete_store =
    Ok (Jsonify 200 [("response", JNull)]) null_complete_store /\
  download null_complete_store = Ok NOT_READY null_complete_store.
Proof. vm_compute. repeat split. Qed.

Example download_from_another_directory :
  final_response (conversation_state elsewhere_store) = Some "O" /\
  download elsewhere_store =
    Raise NotFound
          (mkStore (world elsewhere_store) (conversation_state elsewhere_store)
                   (calls elsewhere_store) (threads elsewhere_store)
                   (mkDisk "/home/user" "/srv/app"
                           [(("/home/user", "marketing_strategy.txt"), "O")])).
Proof. vm_compute. split; reflexivity. Qed.

(** ** The claims at concrete stores *)

(** C2 as stated fails: an identifier outside [AVAILABLE_MODELS] that is
    posted to [/start] is stored as the session's model. *)
Lemma unsupported_model_is_stored :
  ~ start_falls_back_to_default numbered_service.
Proof.
  intros H.
  destruct (H "gpt-5" start_store) as (r & st' & Hrun & _ & Hin).
  rewrite start_conversation_run in Hrun. cbv zeta in Hrun.
  injection Hrun as _ <-.
  vm_compute in Hin.
  repeat (destruct Hin as [Hin|Hin]; [discriminate Hin|]).
  exact Hin.
Qed.

Lemma start_stores_posted_model_witness :
  exists (r : response) (st' : Store nat),
    start_conversation numbered_service [("model", "gpt-5")] start_store
      = Ok r st' /\
    model (conversation_state st') = "gpt-5" /\
    ~ In (model (conversation_state st')) AVAILABLE_MODELS.
Proof.
  destruct (start_stores_posted_model nat numbered_service
              [("model", "gpt-5")] start_store)
    as (r & st' & Hrun & _ & Hposted & Hiff).
  exists r, st'. split; [exact Hrun|].
  split; [apply Hposted; reflexivity|].
  intros Hin. apply Hiff in Hin.
  destruct Hin as [Hnone|(m & Hm & Hin)]; [discriminate Hnone|].
  injection Hm as <-. vm_compute in Hin.
  repeat (destruct Hin as [Hin|Hin]; [discriminate Hin|]).
  exact Hin.
Defined.


Lemma next_step_invalid_step_witness :
  step (conversation_state complete_store) = 4 /\
  exists st' : Store nat,
    next_step numbered_service
              [("input", "once more"); ("step", "1")] complete_store
      = Ok (Jsonify 200 [("error", JStr "Invalid step")]) st' /\
    st' = complete_store.
Proof.
  split; [reflexivity|].
  destruct (next_step_invalid_step nat numbered_service
              [("input", "once more"); ("step", "1")] complete_store)
    as (st' & Hrun & Hsame & _).
  - vm_compute. discriminate.
  - vm_compute. discriminate.
  - exists st'. split; assumption.
Defined.

(** C7 as stated fails: when the service replies to the final call with
    a [null] content, the batch runner ends in step 4 with
    [final_response] [None]. *)
Lemma null_reply_leaves_no_document :
  ~ runner_keeps_document_invariant null_service.
Proof.
  intros H.
  destruct (H launched_store) as (st' & Hrun & Hinv).
  { unfold document_invariant. vm_compute. split; [congruence|discriminate]. }
  assert (Hst : st' = null_complete_store).
  { unfold null_complete_store. rewrite Hrun. reflexivity. }
  subst st'.
  assert (H4 : step (conversation_state null_complete_store) = 4)
    by (vm_compute; reflexivity).
  apply (proj2 Hinv H4). vm_compute. reflexivity.
Qed.

Lemma document_invariant_witness :
  document_invariant (conversation_state niche_store) /\
  (exists (r : response) (st' : Store nat),
      next_step numbered_service
                [("input", "dog walkers"); ("step", "1")] niche_store = Ok r st' /\
      document_invariant (conversation_state st')) /\
  exists (new : list Call) (fin : Call) (st' : Store nat),
    process_all_scripted_prompts null_service launched_store = Ok tt st' /\
    calls st' = (calls launched_store ++ new ++ [fin])%list /\
    step (conversation_state st') = 4 /\
    final_response (conversation_state st') = call_reply fin.
Proof.
  assert (Hinv : document_invariant (conversation_state niche_store)).
  { unfold document_invariant. vm_compute. split; [congruence|discriminate]. }
  split; [exact Hinv|].
  split.
  - apply (proj1 (proj2 (proj2 (document_invariant_preserved nat numbered_service)))).
    exact Hinv.
  - destruct (proj1 (proj2 (proj2 (proj2
                (document_invariant_preserved nat null_service)))) launched_store)
      as (new & fin & st' & Hrun & Hcalls & _ & Hstep & Hdoc & _).
    exists new, fin, st'. repeat split; assumption.
Defined.

Lemma start_conversation_opens_session_witness :
  In "gpt-4" AVAILABLE_MODELS /\
  exists (c : Call) (r : response) (st' : Store nat),
    start_conversation numbered_service [("model", "gpt-4")] complete_store
      = Ok r st' /\
    calls st' = (calls complete_store ++ [c])%list /\
    call_messages c = [user_turn INITIAL_PROMPT] /\
    step (conversation_state st') = 1 /\
    length (history (conversation_state st')) = 2%nat.
Proof.
  assert (Hin : In "gpt-4" AVAILABLE_MODELS).
  { simpl. right. right. left. reflexivity. }
  split; [exact Hin|].
  destruct (start_conversation_opens_session nat numbered_service
              [("model", "gpt-4")] "gpt-4" complete_store Hin eq_refl)
    as (c & r & st' & Hrun & Hcalls & _ & Hmsg & _ & _ & Hstep & Hlen).
  exists c, r, st'. repeat split; assumption.
Defined.

Lemma next_step_ignores_posted_step_witness :
  next_step numbered_service [("input", "dog walkers"); ("step", "1")] niche_store
  = next_step numbered_service [("input", "dog walkers"); ("step", "4")] niche_store.
Proof.
  apply (next_step_ignores_posted_step nat numbered_service).
  intros key Hkey. cbn [form_lookup].
  destruct (String.eqb "input" key); [reflexivity|].
  destruct (String.eqb_spec "step" key) as [Heq|_]; [|reflexivity].
  symmetry in Heq. contradiction.
Defined.



(** ** The further properties at concrete stores *)

Lemma niche_moves_to_offer_witness :
  step (conversation_state niche_store) = 1 /\
  exists (c : Call) (st' : Store nat),
    next_step numbered_service [("input", "dog walkers")] niche_store =
      Ok (Jsonify 200
            [("response", json_of_text (call_reply c));
             ("step", JInt 2);
             ("user_prompt",
              JStr "Now please provide context about your company and offer:");
             ("status", JStr "Starting...")]) st' /\
    calls st' = (calls niche_store ++ [c])%list /\
    step (conversation_state st') = 2.
Proof.
  split; [reflexivity|].
  destruct (niche_moves_to_offer nat numbered_service
              [("input", "dog walkers")] niche_store eq_refl)
    as (c & st' & Hrun & Hcalls & _ & _ & _ & Hst' & _).
  exists c, st'. split; [exact Hrun|]. split; [exact Hcalls|].
  rewrite Hst'. reflexivity.
Defined.

Lemma second_offer_is_refused_witness :
  step (conversation_state offer_store) = 2 /\
  is_processing (conversation_state offer_store) = false /\
  (4 <= length SCRIPTED_PROMPTS)%nat /\
  exists (r : response) (st1 stk st2 : Store nat),
    next_step numbered_service [("input", "a booking app")] offer_store = Ok r st1 /\
    next_step numbered_service [("input", "a booking app")] st1 =
      Ok (Jsonify 200 [("error", JStr "Invalid step")]) st1 /\
    batch_until numbered_service 4 st1 = Ok tt stk /\
    next_step numbered_service [("input", "a booking app")] stk =
      Ok (Jsonify 200 [("error", JStr "Invalid step")]) stk /\
    process_all_scripted_prompts numbered_service st1 = Ok tt st2 /\
    threads st2 = 1%nat.
Proof.
  assert (Hk : (4 <= length SCRIPTED_PROMPTS)%nat) by (simpl; lia).
  split; [reflexivity|]. split; [reflexivity|]. split; [exact Hk|].
  destruct (second_offer_is_refused nat numbered_service
              [("input", "a booking app")] [("input", "a booking app")] 4
              offer_store eq_refl eq_refl Hk)
    as (r & st1 & stk & st2 & H1 & _ & H2 & Hk1 & Hk2 & Hrun & _ & _ & Hthr & _).
  exists r, st1, stk, st2. repeat split; assumption.
Defined.

Lemma start_does_not_stop_runner_witness :
  (4 <= length SCRIPTED_PROMPTS)%nat /\
  exists (st1 : Store nat) (r : response) (st2 st3 : Store nat),
    batch_until numbered_service 4 launched_store = Ok tt st1 /\
    start_conversation numbered_service [("model", "gpt-4")] st1 = Ok r st2 /\
    batch_from numbered_service 4 st2 = Ok tt st3 /\
    step (conversation_state st3) = 4 /\
    length (history (conversation_state st3)) = 16%nat.
Proof.
  assert (Hk : (4 <= length SCRIPTED_PROMPTS)%nat) by (simpl; lia).
  split; [exact Hk|].
  destruct (start_does_not_stop_runner nat numbered_service 4
              [("model", "gpt-4")] launched_store Hk)
    as (_ & st1 & r & st2 & new & fin & st3 & H1 & H2 & _ & _ & H3 & _ & _ & _
        & Hst3 & Hlen).
  exists st1, r, st2, st3.
  split; [exact H1|]. split; [exact H2|]. split; [exact H3|].
  split; [rewrite Hst3; reflexivity|exact Hlen].
Defined.

Lemma download_writes_document_witness :
  working_directory (files complete_store) = root_path (files complete_store) /\
  final_response (conversation_state complete_store) = Some "O" /\
  exists st' : Store nat,
    download complete_store = Ok (Attachment "marketing_strategy.txt" "O") st' /\
    file_lookup (contents (files st')) ("/srv/app", "marketing_strategy.txt") =
      Some "O".
Proof.
  assert (Hroot : working_directory (files complete_store) =
                  root_path (files complete_store))
    by (vm_compute; reflexivity).
  assert (Hdoc : final_response (conversation_state complete_store) = Some "O")
    by (vm_compute; reflexivity).
  split; [exact Hroot|]. split; [exact Hdoc|].
  destruct (download_writes_document nat "O" complete_store Hroot Hdoc)
    as (st' & Hrun & Hfile & _).
  - discriminate.
  - exists st'. split; [exact Hrun|exact Hfile].
Defined.

Lemma history_alternates_witness :
  alternating (history (conversation_state offer_store)) /\
  exists (st' : Store nat) (new : list Call),
    process_all_scripted_prompts numbered_service offer_store = Ok tt st' /\
    calls st' = (calls offer_store ++ new)%list /\
    Forall (fun c => well_formed_request (call_messages c)) new /\
    alternating (history (conversation_state st')).
Proof.
  assert (Halt : alternating (history (conversation_state offer_store))).
  { vm_compute. repeat split. }
  split; [exact Halt|].
  exact (proj2 (proj2 (history_alternates nat numbered_service offer_store) Halt)).
Defined.

Lemma blank_input_is_accepted_witness :
  strip (String (ascii_of_nat 194) (String (ascii_of_nat 160) "  ")) = "" /\
  step (conversation_state niche_store) = 1 /\
  exists (c : Call) (r : response) (st' : Store nat),
    next_step numbered_service
              [("step", "1");
               ("input", String (ascii_of_nat 194) (String (ascii_of_nat 160) "  "))]
              niche_store = Ok r st' /\
    calls st' = (calls niche_store ++ [c])%list /\
    call_prompt c =
      "Great
1. My target niche: This time, I'm aiming to reach out to ****
2. My previous thoughts and understanding of this niche: ****
I can provide you with the context about my company if this is clear. 
Sounds good?" /\
    step (conversation_state st') = 2.
Proof.
  split; [reflexivity|]. split; [reflexivity|].
  destruct (blank_input_is_accepted nat numbered_service
              [("step", "1");
               ("input", String (ascii_of_nat 194) (String (ascii_of_nat 160) "  "))]
              niche_store)
    as (Hniche & _ & Hstep1 & _).
  - intros v Hv. injection Hv as <-. reflexivity.
  - destruct (Hstep1 eq_refl) as (c & r & st' & Hrun & Hcalls & Hprompt & Hstep).
    exists c, r, st'.
    split; [exact Hrun|]. split; [exact Hcalls|].
    split; [rewrite Hprompt; exact Hniche|exact Hstep].
Defined.
